(** * Patient-monitor firmware simulation: PWM mapping, alarm masks, stream loop

    Shallow embedding of [22017751_EmirDulger.c].

    - C [int] values are integers of [Z]; every statement about the two
      driver functions quantifies over all of [Z], hence over every [int].
    - C [double] is Rocq's primitive binary64 [float] (round to nearest,
      ties to even); C [float] values are the binary64 numbers that are
      representable in binary32, obtained by rounding to 24 bits.
    - The C library calls of [main] are recorded as a trace of [io_event]s;
      standard output is the sequence of the [Printf] texts. *)

From Stdlib Require Import ZArith NArith QArith Qround List Bool Ascii String Lia.
From Stdlib Require Import PrimFloat SpecFloat FloatOps.
Import ListNotations.

Local Open Scope Z_scope.

(* ------------------------------------------------------------------ *)
(** ** Machine integers *)

Module CInt.

Definition INT_MIN : Z := - 2 ^ 31.
Definition INT_MAX : Z := 2 ^ 31 - 1.
Definition LONG_MIN : Z := - 2 ^ 63.
Definition LONG_MAX : Z := 2 ^ 63 - 1.

Definition in_range (z : Z) : bool := (INT_MIN <=? z) && (z <=? INT_MAX).

(** Two's complement reduction to 32 bits.  Signed overflow is undefined in
    ISO C; this is what the usual targets do for [packet_counter++]. *)
Definition wrap (z : Z) : Z := (z + 2 ^ 31) mod 2 ^ 32 - 2 ^ 31.

(** C's [%] on [int]: the remainder has the sign of the dividend. *)
Definition c_rem (a b : Z) : Z := Z.rem a b.

End CInt.

(* ------------------------------------------------------------------ *)
(** ** Floating point conversions *)

Module CDouble.

Definition double := float.

(** [(double) z] for an [int] [z] (always exact). *)
Definition of_int (z : Z) : double := SF2Prim (binary_normalize 53 1024 z 0 false).

(** [(float) z] for an [int] [z]: rounded to binary32. *)
Definition float_of_int (z : Z) : double := SF2Prim (binary_normalize 24 128 z 0 false).

(** Narrowing of a [double] to [float], as in [float duty_perc = ...]. *)
Definition to_float (x : double) : double :=
  match Prim2SF x with
  | S754_finite s m e => SF2Prim (binary_round 24 128 s m e)
  | _ => x
  end.

(** The integer part of a finite double (rounding toward zero). *)
Definition trunc (x : double) : option Z :=
  match Prim2SF x with
  | S754_zero _ => Some 0
  | S754_finite s m e =>
      let a := if 0 <=? e then Z.shiftl (Zpos m) e else Z.shiftr (Zpos m) (- e) in
      Some (if s then - a else a)
  | S754_infinity _ | S754_nan => None
  end.

(** [(int) x] is defined by ISO C only when the integer part fits. *)
Definition int_cast_defined (x : double) : bool :=
  match trunc x with
  | Some z => CInt.in_range z
  | None => false
  end.

(** [(int) x]; where ISO C leaves it undefined the x86-64 conversion
    instruction delivers [INT_MIN]. *)
Definition to_int (x : double) : Z :=
  match trunc x with
  | Some z => if CInt.in_range z then z else CInt.INT_MIN
  | None => CInt.INT_MIN
  end.

End CDouble.

(* ------------------------------------------------------------------ *)
(** ** Hardware configuration and alarm masks (the [#define]s) *)

Definition TIMER_RELOAD_VAL : Z := 1000.
Definition MAX_HR_LIMIT : CDouble.double := 200%float.
Definition SOURCE_FILE : string := "patient_data.csv".

Definition STATUS_NORMAL : Z := 0x0000.
Definition STATUS_WARNING : Z := 0x5555.
Definition STATUS_CRITICAL : Z := 0xAAAA.
Definition STATUS_FAILURE : Z := 0xFFFF.

(* ------------------------------------------------------------------ *)
(** ** Driver implementations *)

(** The value of the scaling expression
    [(float)heart_rate_input / MAX_HR_LIMIT * TIMER_RELOAD_VAL],
    evaluated in [double] because [MAX_HR_LIMIT] is a [double] constant. *)
Definition pwm_scaled (heart_rate_input : Z) : CDouble.double :=
  (CDouble.float_of_int heart_rate_input / MAX_HR_LIMIT
   * CDouble.of_int TIMER_RELOAD_VAL)%float.

Definition compute_pwm_register (heart_rate_input : Z) : Z :=
  let heart_rate_input :=
    if heart_rate_input >? CDouble.to_int MAX_HR_LIMIT
    then CDouble.to_int MAX_HR_LIMIT else heart_rate_input in
  let heart_rate_input :=
    if heart_rate_input <? 0 then 0 else heart_rate_input in
  CDouble.to_int (pwm_scaled heart_rate_input).

(** [evaluate_alarm_condition] returns the mask and fills [output_msg];
    the model returns both. *)
Definition evaluate_alarm_condition (oxygen_sat : Z) : Z * string :=
  if oxygen_sat =? 0 then (STATUS_FAILURE, "SENSOR ERROR"%string)
  else if oxygen_sat <? 90 then (STATUS_CRITICAL, "CRITICAL: Odd Pins ON"%string)
  else if oxygen_sat <? 95 then (STATUS_WARNING, "WARNING: Even Pins ON"%string)
  else (STATUS_NORMAL, "NORMAL"%string).

(* ------------------------------------------------------------------ *)
(** ** Text output: the [printf] conversions used by [main] *)

Module Printf.

Local Open Scope string_scope.
Local Open Scope Z_scope.

(** The line feed written as [\n] in the C string literals. *)
Definition nl : string := String "010"%char EmptyString.

Definition digit_char (d : Z) : ascii := ascii_of_nat (48 + Z.to_nat d).

(** Decimal digits of a non-negative number, most significant first. *)
Fixpoint fmt_digits (fuel : nat) (n : Z) (acc : string) : string :=
  match fuel with
  | O => acc
  | S fuel' =>
      let acc' := String (digit_char (n mod 10)) acc in
      if n <? 10 then acc' else fmt_digits fuel' (n / 10) acc'
  end.

Definition fmt_u (n : Z) : string :=
  fmt_digits (S (Z.to_nat (Z.log2 n))) n "".

(** [%d] *)
Definition fmt_d (z : Z) : string :=
  if z <? 0 then String "-"%char (fmt_u (- z)) else fmt_u z.

Definition hex_char (d : Z) : ascii :=
  if d <? 10 then digit_char d else ascii_of_nat (55 + Z.to_nat d).

Fixpoint fmt_hex_digits (fuel : nat) (n : Z) (acc : string) : string :=
  match fuel with
  | O => acc
  | S fuel' =>
      let acc' := String (hex_char (n mod 16)) acc in
      if n <? 16 then acc' else fmt_hex_digits fuel' (n / 16) acc'
  end.

Fixpoint zeros (k : nat) : string :=
  match k with
  | O => ""
  | S k' => String "0"%char (zeros k')
  end.

Definition pad_zero (width : nat) (s : string) : string :=
  zeros (width - String.length s) ++ s.

(** [%04X] applied to an [unsigned int]. *)
Definition fmt_04X (n : Z) : string :=
  pad_zero 4 (fmt_hex_digits (S (Z.to_nat (Z.log2 n))) n "").

(** The integer nearest to [num / den], ties to the even one
    ([num >= 0], [den > 0]). *)
Definition round_half_even (num den : Z) : Z :=
  let q := num / den in
  let r := num mod den in
  match 2 * r ?= den with
  | Lt => q
  | Gt => q + 1
  | Eq => if Z.even q then q else q + 1
  end.

(** The number of units of [10 ^ - p] that [%.pf] shows for a finite
    double: the exact binary value, correctly rounded. *)
Definition scaled_decimal (p : nat) (m : positive) (e : Z) : Z :=
  let scale := 10 ^ Z.of_nat p in
  if 0 <=? e then Zpos m * 2 ^ e * scale
  else round_half_even (Zpos m * scale) (2 ^ (- e)).

Definition sign_text (s : bool) : string := if s then "-" else "".

(** [%.pf] for [p >= 1], in the "C" locale set by [setlocale] (the decimal
    separator is a full stop). *)
Definition fmt_f (p : nat) (x : CDouble.double) : string :=
  match Prim2SF x with
  | S754_nan => "nan"
  | S754_infinity s => sign_text s ++ "inf"
  | S754_zero s => sign_text s ++ "0." ++ zeros p
  | S754_finite s m e =>
      let scale := 10 ^ Z.of_nat p in
      let n := scaled_decimal p m e in
      sign_text s ++ fmt_u (n / scale) ++ "." ++ pad_zero p (fmt_u (n mod scale))
  end.

End Printf.

(* ------------------------------------------------------------------ *)
(** ** Text input: [fscanf(data_stream, "%d,%d", ...)] *)

Module Scanf.

Local Open Scope string_scope.
Local Open Scope Z_scope.

(** [isspace] in the "C" locale. *)
Definition isspace (c : ascii) : bool :=
  let n := nat_of_ascii c in
  (Nat.eqb n 32) || ((Nat.leb 9 n) && (Nat.leb n 13)).

Definition isdigit (c : ascii) : bool :=
  let n := nat_of_ascii c in
  (Nat.leb 48 n) && (Nat.leb n 57).

Definition digit_value (c : ascii) : Z := Z.of_nat (nat_of_ascii c) - 48.

Fixpoint skip_space (s : string) : string :=
  match s with
  | String c s' => if isspace c then skip_space s' else s
  | EmptyString => s
  end.

(** The longest run of digits at the head of [s], accumulated in base 10. *)
Fixpoint scan_digits (s : string) (acc : Z) : Z * string :=
  match s with
  | String c s' =>
      if isdigit c then scan_digits s' (10 * acc + digit_value c) else (acc, s)
  | EmptyString => (acc, s)
  end.

(** What ends up in the [int] object: glibc converts with [strtol], which
    saturates at the limits of [long], and stores the low 32 bits. *)
Definition store_int (v : Z) : Z :=
  CInt.wrap (Z.max CInt.LONG_MIN (Z.min CInt.LONG_MAX v)).

Inductive conversion :=
| Converted (v : Z) (rest : string)
| MatchFailure
| InputFailure.

(** One [%d]: white space is skipped, then an optional sign and at least
    one digit are required. *)
Definition scan_d (s : string) : conversion :=
  match skip_space s with
  | EmptyString => InputFailure
  | String c s' =>
      let negative := Ascii.eqb c "-" in
      let body := if negative || Ascii.eqb c "+" then s' else String c s' in
      match body with
      | String d _ =>
          if isdigit d then
            let (v, rest) := scan_digits body 0 in
            Converted (store_int (if negative then - v else v)) rest
          else MatchFailure
      | EmptyString => MatchFailure
      end
  end.

(** The result of one call: the value returned by [fscanf] (the number of
    items assigned, or [EOF = -1]), the two objects and the unread input. *)
Record scanned := {
  ret : Z;
  hr_reading : Z;
  spo2_reading : Z;
  unread : string
}.

Definition EOF : Z := -1.

(** [fscanf(data_stream, "%d,%d", &hr_reading, &spo2_reading)]. The objects
    of conversions that did not happen are reported as 0; [main] never
    looks at them. *)
Definition fscanf_d_comma_d (s : string) : scanned :=
  match scan_d s with
  | InputFailure => {| ret := EOF; hr_reading := 0; spo2_reading := 0; unread := "" |}
  | MatchFailure => {| ret := 0; hr_reading := 0; spo2_reading := 0; unread := s |}
  | Converted hr s1 =>
      match s1 with
      | String c s2 =>
          if Ascii.eqb c "," then
            match scan_d s2 with
            | Converted spo2 s3 =>
                {| ret := 2; hr_reading := hr; spo2_reading := spo2; unread := s3 |}
            | _ => {| ret := 1; hr_reading := hr; spo2_reading := 0; unread := s2 |}
            end
          else {| ret := 1; hr_reading := hr; spo2_reading := 0; unread := s1 |}
      | EmptyString => {| ret := 1; hr_reading := hr; spo2_reading := 0; unread := s1 |}
      end
  end.

End Scanf.

(* ------------------------------------------------------------------ *)
(** ** The program and its environment *)

(** What a run can see: command line, environment, the files that can be
    opened for reading (with their contents) and standard input. *)
Record world := {
  argv : list string;
  environ : string -> option string;
  files : string -> option string;
  stdin : string
}.

(** The library calls that touch the outside. *)
Inductive io_event :=
| Fopen (path : string) (opened : bool)
| Fscanf (ret : Z)
| Fclose
| Printf (text : string)
| Getchar (c : option ascii).

Record loop_state := {
  sys_time_sec : CDouble.double;
  packet_counter : Z;
  trace : list io_event
}.

Section Main.

Import Printf.
Local Open Scope string_scope.
Local Open Scope Z_scope.

(** The four [printf] calls of the display branch. *)
Definition status_block (sys_time_sec : CDouble.double)
    (hr_reading spo2_reading ccr_output gpio_odr : Z) (alarm_desc : string)
    : list io_event :=
  let duty_perc :=
    CDouble.to_float (CDouble.float_of_int ccr_output / 10)%float in
  [ Printf ("Time: " ++ fmt_f 3 sys_time_sec ++ " s | BPM: " ++ fmt_d hr_reading
            ++ " | SpO2: " ++ fmt_d spo2_reading ++ nl);
    Printf ("  -> [PWM] Calculated CCR Value: " ++ fmt_d ccr_output
            ++ " (Duty: " ++ fmt_f 1 duty_perc ++ "%)" ++ nl);
    Printf ("  -> [GPIO] Port D ODR Value: 0x" ++ fmt_04X gpio_odr
            ++ " (" ++ alarm_desc ++ ")" ++ nl);
    Printf ("--------------------------------------------------------------" ++ nl) ].

(** The display filter. *)
Definition display_filter (packet_counter gpio_odr : Z) : bool :=
  let is_start := packet_counter =? 1 in
  let is_second_mark := CInt.c_rem packet_counter 1000 =? 0 in
  let is_alarm_active := negb (gpio_odr =? STATUS_NORMAL) in
  is_start || is_second_mark || is_alarm_active.

(** [sys_time_sec += 0.001]: the constant is the double that the literal
    [0.001] denotes (see [tick_constant_is_nearest]), the sum is rounded. *)
Definition tick (sys_time_sec : CDouble.double) : CDouble.double :=
  (sys_time_sec + 0x1.0624dd2f1a9fcp-10)%float.

(** The body of the [while] loop for one converted pair. *)
Definition loop_body (hr_reading spo2_reading : Z) (st : loop_state) : loop_state :=
  let ccr_output := compute_pwm_register hr_reading in
  let (gpio_odr, alarm_desc) := evaluate_alarm_condition spo2_reading in
  let packet_counter := CInt.wrap (packet_counter st + 1) in
  let shown :=
    if display_filter packet_counter gpio_odr
    then status_block (sys_time_sec st) hr_reading spo2_reading
                      ccr_output gpio_odr alarm_desc
    else [] in
  {| sys_time_sec := tick (sys_time_sec st);
     packet_counter := packet_counter;
     trace := (trace st ++ shown)%list |}.

(** The [while] loop.  Each round consumes input, so [fuel] greater than
    the length of the stream is never used up (see [read_loop_fuel]). *)
Fixpoint read_loop (fuel : nat) (data_stream : string) (st : loop_state)
    : loop_state :=
  match fuel with
  | O => st
  | S fuel' =>
      let r := Scanf.fscanf_d_comma_d data_stream in
      let st' := {| sys_time_sec := sys_time_sec st;
                    packet_counter := packet_counter st;
                    trace := (trace st ++ [Fscanf (Scanf.ret r)])%list |} in
      if Scanf.ret r =? 2
      then read_loop fuel' (Scanf.unread r)
             (loop_body (Scanf.hr_reading r) (Scanf.spo2_reading r) st')
      else st'
  end.

Definition getchar (input : string) : option ascii :=
  match input with
  | String c _ => Some c
  | EmptyString => None
  end.

(** The fixed texts of [main]. *)
Definition missing_file_diagnostic : list string :=
  [ "[SYSTEM ERROR] Input file '" ++ SOURCE_FILE ++ "' is missing." ++ nl;
    "Please verify the file location." ++ nl ].

Definition start_banner : list string :=
  [ "--- BME3323 FIRMWARE SIMULATION: STARTING ---" ++ nl;
    "--- Processing Patient Vitals... ---" ++ nl ++ nl ].

Definition completion_notice : string :=
  nl ++ ">>> Simulation Completed Successfully." ++ nl.

Definition exit_prompt : string := "Press Enter to exit...".

(** The state on entry to the loop: clock and counter at zero. *)
Definition initial_state : loop_state :=
  {| sys_time_sec := 0%float;
     packet_counter := 0;
     trace := Fopen SOURCE_FILE true :: map Printf start_banner |}.

(** [main]: the exit status and the calls made, in order.  The call
    [setlocale(LC_ALL, "C")] has no effect outside the process; it fixes the
    decimal separator that [fmt_f] writes. *)
Definition main (w : world) : Z * list io_event :=
  match files w SOURCE_FILE with
  | None =>
      (1, Fopen SOURCE_FILE false :: map Printf missing_file_diagnostic)
  | Some data_stream =>
      let st := read_loop (S (String.length data_stream)) data_stream initial_state in
      (0, (trace st ++
           [ Fclose;
             Printf completion_notice;
             Printf exit_prompt;
             Getchar (getchar (stdin w)) ])%list)
  end.

End Main.

(** ** Observations on a run *)

Definition exit_code (r : Z * list io_event) : Z := fst r.

(** The texts written to standard output, one per [printf] call. *)
Fixpoint stdout (t : list io_event) : list string :=
  match t with
  | Printf text :: t' => text :: stdout t'
  | _ :: t' => stdout t'
  | [] => []
  end.

(* ------------------------------------------------------------------ *)
(** ** Notions used to state the properties *)

(** The heart rate clamped to [0, 200], as an integer. *)
Definition clamp_hr (h : Z) : Z := Z.max 0 (Z.min h 200).

(** The 201 clamped inputs, checked by evaluation of the float expression. *)
Definition pwm_table_ok (k : nat) : bool :=
  (CDouble.to_int (pwm_scaled (Z.of_nat k)) =? 5 * Z.of_nat k)
  && CDouble.int_cast_defined (pwm_scaled (Z.of_nat k)).

(** The contract of the mapper in the words of the specification:
    [round_down(clamp(h, 0, 200) / 200 * 1000)], over the rationals. *)
Definition spec_pwm (h : Z) : Z :=
  Qfloor (Qmult (Qdiv (inject_Z (Z.max 0 (Z.min h 200))) (inject_Z 200)) (inject_Z 1000)).

(** The four mask/label pairs of the source. *)
Definition alarm_pairs : list (Z * string) :=
  [ (STATUS_FAILURE, "SENSOR ERROR"%string);
    (STATUS_CRITICAL, "CRITICAL: Odd Pins ON"%string);
    (STATUS_WARNING, "WARNING: Even Pins ON"%string);
    (STATUS_NORMAL, "NORMAL"%string) ].

(** The [fscanf] call is logged before its result is tested. *)
Definition log_scan (ret : Z) (st : loop_state) : loop_state :=
  {| sys_time_sec := sys_time_sec st;
     packet_counter := packet_counter st;
     trace := trace st ++ [Fscanf ret] |}.

(** One round of the loop for a converted pair. *)
Definition process_record (st : loop_state) (r : Z * Z) : loop_state :=
  loop_body (fst r) (snd r) (log_scan 2 st).

(** The pairs converted by successive calls, and the value returned by the
    call that ends the loop. *)
Fixpoint scan_all (fuel : nat) (data_stream : string) : list (Z * Z) * Z :=
  match fuel with
  | O => ([], 2)
  | S fuel' =>
      let r := Scanf.fscanf_d_comma_d data_stream in
      if Scanf.ret r =? 2
      then let (recs, last) := scan_all fuel' (Scanf.unread r) in
           ((Scanf.hr_reading r, Scanf.spo2_reading r) :: recs, last)
      else ([], Scanf.ret r)
  end.

(** The pairs that [main] processes when the file holds [data_stream]. *)
Definition records_of (data_stream : string) : list (Z * Z) :=
  fst (scan_all (S (String.length data_stream)) data_stream).

(** A world in which [SOURCE_FILE] holds [content] and nothing else exists. *)
Definition world_with (content : string) : world :=
  {| argv := [];
     environ := fun _ => None;
     files := fun path => if String.eqb path SOURCE_FILE then Some content else None;
     stdin := EmptyString |}.

(** A world without any readable file. *)
Definition world_without_file : world :=
  {| argv := []; environ := fun _ => None; files := fun _ => None;
     stdin := EmptyString |}.

(** A world whose standard input holds the letter q. *)
Definition world_with_key (content : string) : world :=
  {| argv := []; environ := fun _ => None;
     files := files (world_with content);
     stdin := String "q" EmptyString |}.

(** The status block that the loop body shows for a pair in state [st]. *)
Definition shown_block (st : loop_state) (hr spo2 : Z) : list io_event :=
  status_block (sys_time_sec st) hr spo2 (compute_pwm_register hr)
               (fst (evaluate_alarm_condition spo2))
               (snd (evaluate_alarm_condition spo2)).

(** The values of [packet_counter] at which a status block was written
    while [recs] were processed from state [st]. *)
Fixpoint printed_counters (recs : list (Z * Z)) (st : loop_state) : list Z :=
  match recs with
  | [] => []
  | r :: recs' =>
      let st' := process_record st r in
      (if Nat.eqb (List.length (stdout (trace st'))) (List.length (stdout (trace st)))
       then [] else [packet_counter st'])
      ++ printed_counters recs' st'
  end.

(** [n] copies of a text, one after the other. *)
Fixpoint repeat_text (n : nat) (line : string) : string :=
  match n with
  | O => EmptyString
  | S n' => String.append line (repeat_text n' line)
  end.

Section ScenarioTexts.

Import Printf.
Local Open Scope string_scope.

(** The input of 2500 lines [80,97]. *)
Definition steady_2500 : string := repeat_text 2500 ("80,97" ++ nl).

(** The status block of a pair [80,97] shown at the given time. *)
Definition steady_block (time : string) : list string :=
  [ "Time: " ++ time ++ " s | BPM: 80 | SpO2: 97" ++ nl;
    "  -> [PWM] Calculated CCR Value: 400 (Duty: 40.0%)" ++ nl;
    "  -> [GPIO] Port D ODR Value: 0x0000 (NORMAL)" ++ nl;
    "--------------------------------------------------------------" ++ nl ].

End ScenarioTexts.

(** Calls on the data file named [SOURCE_FILE] and writes to standard output. *)
Definition file_or_stdout (e : io_event) : bool :=
  match e with
  | Fopen path _ => String.eqb path SOURCE_FILE
  | Fscanf _ | Fclose | Printf _ => true
  | Getchar _ => false
  end.

(** A well-formed input line for a pair, and a file of such lines. *)
Definition csv_line (r : Z * Z) : string :=
  String.append (Printf.fmt_d (fst r))
    (String "," (String.append (Printf.fmt_d (snd r)) Printf.nl)).

Fixpoint csv (recs : list (Z * Z)) : string :=
  match recs with
  | [] => EmptyString
  | r :: recs' => String.append (csv_line r) (csv recs')
  end.

(** The text does not begin with a digit (it may be empty). *)
Definition no_leading_digit (s : string) : bool :=
  match s with
  | String c _ => negb (Scanf.isdigit c)
  | EmptyString => true
  end.

Definition int_pair (r : Z * Z) : Prop :=
  CInt.in_range (fst r) = true /\ CInt.in_range (snd r) = true.

(** The reading of the input in the words of the specification: the file is
    a sequence of lines, a line is a record when it is exactly two integers
    separated by a comma, and the first line that is not a record ends the
    loop, neither it nor any later line being processed. *)
Module LineSpec.

Fixpoint lines (s : string) : list string :=
  match s with
  | EmptyString => []
  | String c s' =>
      if Ascii.eqb c "010" then EmptyString :: lines s'
      else match lines s' with
           | [] => [String c EmptyString]
           | l :: ls => String c l :: ls
           end
  end.

(** An optionally signed run of digits at the head of the text. *)
Definition integer_prefix (s : string) : option (Z * string) :=
  let negative := match s with String c _ => Ascii.eqb c "-" | _ => false end in
  let signed := match s with
                | String c _ => (Ascii.eqb c "-" || Ascii.eqb c "+")%bool
                | _ => false
                end in
  let body := match s with
              | String _ s' => if signed then s' else s
              | EmptyString => s
              end in
  match body with
  | String d _ =>
      if Scanf.isdigit d
      then let (v, rest) := Scanf.scan_digits body 0 in
           Some (if negative then - v else v, rest)
      else None
  | EmptyString => None
  end.

Definition record_of_line (l : string) : option (Z * Z) :=
  match integer_prefix l with
  | Some (hr, String c r) =>
      if Ascii.eqb c "," then
        match integer_prefix r with
        | Some (spo2, EmptyString) => Some (hr, spo2)
        | _ => None
        end
      else None
  | _ => None
  end.

Fixpoint records_until_malformed (ls : list string) : list (Z * Z) :=
  match ls with
  | [] => []
  | l :: ls' =>
      match record_of_line l with
      | Some r => r :: records_until_malformed ls'
      | None => []
      end
  end.

Definition records (content : string) : list (Z * Z) :=
  records_until_malformed (lines content).

End LineSpec.

(** A line with a third field, and a file with a blank line in the middle. *)
Definition three_field_line : string :=
  String.append "100,98,77" Printf.nl.

Definition blank_line_file : string :=
  String.append "1,98" (String.append Printf.nl
    (String.append Printf.nl (String.append "2,98" Printf.nl))).

(** The input of the three-sample example. *)
Definition three_samples : string :=
  csv [(100, 98); (150, 92); (60, 0)].

(** The clock after [n] increments, starting from zero. *)
Definition clock_after (n : N) : CDouble.double := N.iter n tick 0%float.

(** The elapsed time that the status block of sample [n + 1] shows. *)
Definition time_shown (n : N) : string := Printf.fmt_f 3 (clock_after n).

(** [n] thousandths written with three decimals: the text of [n * 0.001]. *)
Definition exact_time (n : N) : string :=
  String.append (Printf.fmt_u (Z.of_N n / 1000))
    (String "." (Printf.pad_zero 3 (Printf.fmt_u (Z.of_N n mod 1000)))).

(** The increment is the double nearest to one thousandth: its distance
    from 1/1000 is at most half a unit in the last place. *)
Definition tick_constant_nearest : bool :=
  match Prim2SF (tick 0%float) with
  | S754_finite false m e =>
      (e <? 0) && (2 * Z.abs (1000 * Zpos m - 2 ^ (- e)) <=? 1000)
      && (2 ^ 52 <=? Zpos m) && (Zpos m <? 2 ^ 53)
  | _ => false
  end.

(** The values of the clock after each full million of increments, up to
    191 million. *)
Definition clock_checkpoints : list CDouble.double :=
  [
    0x1.f3ffffffdc0fep+9; 0x1.f3ffffffd4a3fp+10; 0x1.7700000051d5fp+11; 0x1.f4000000bf35fp+11;
    0x1.38800000964afp+12; 0x1.77000000ccfafp+12; 0x1.b580000103aafp+12; 0x1.f40000013a5afp+12;
    0x1.19400000b8857p+13; 0x1.38800000d3dd7p+13; 0x1.57c00000ef357p+13; 0x1.770000010a8d7p+13;
    0x1.9640000125e57p+13; 0x1.b5800001413d7p+13; 0x1.d4c000015c957p+13; 0x1.f400000177ed7p+13;
    0x1.09a00000c9a2bp+14; 0x1.19400000d74ebp+14; 0x1.28e00000e4fabp+14; 0x1.38800000f2a6bp+14;
    0x1.482000010052bp+14; 0x1.57c000010dfebp+14; 0x1.676000011baabp+14; 0x1.770000012956bp+14;
    0x1.86a000013702bp+14; 0x1.9640000144aebp+14; 0x1.a5e00001525abp+14; 0x1.b58000016006bp+14;
    0x1.c52000016db2bp+14; 0x1.d4c000017b5ebp+14; 0x1.e4600001890abp+14; 0x1.f400000196b6bp+14;
    0x1.01d00000b5df5p+15; 0x1.09a0000042a35p+15; 0x1.116fffffcf675p+15; 0x1.193fffff5c2b5p+15;
    0x1.210ffffee8ef5p+15; 0x1.28dffffe75b35p+15; 0x1.30affffe02775p+15; 0x1.387ffffd8f3b5p+15;
    0x1.404ffffd1bff5p+15; 0x1.481ffffca8c35p+15; 0x1.4feffffc35875p+15; 0x1.57bffffbc24b5p+15;
    0x1.5f8ffffb4f0f5p+15; 0x1.675ffffadbd35p+15; 0x1.6f2ffffa68975p+15; 0x1.76fffff9f55b5p+15;
    0x1.7ecffff9821f5p+15; 0x1.869ffff90ee35p+15; 0x1.8e6ffff89ba75p+15; 0x1.963ffff8286b5p+15;
    0x1.9e0ffff7b52f5p+15; 0x1.a5dffff741f35p+15; 0x1.adaffff6ceb75p+15; 0x1.b57ffff65b7b5p+15;
    0x1.bd4ffff5e83f5p+15; 0x1.c51ffff575035p+15; 0x1.cceffff501c75p+15; 0x1.d4bffff48e8b5p+15;
    0x1.dc8ffff41b4f5p+15; 0x1.e45ffff3a8135p+15; 0x1.ec2ffff334d75p+15; 0x1.f3fffff2c19b5p+15;
    0x1.fbcffff24e5f5p+15; 0x1.01cffff92635ap+16; 0x1.05b7fff966a9ap+16; 0x1.099ffff9a71dap+16;
    0x1.0d87fff9e791ap+16; 0x1.116ffffa2805ap+16; 0x1.1557fffa6879ap+16; 0x1.193ffffaa8edap+16;
    0x1.1d27fffae961ap+16; 0x1.210ffffb29d5ap+16; 0x1.24f7fffb6a49ap+16; 0x1.28dffffbaabdap+16;
    0x1.2cc7fffbeb31ap+16; 0x1.30affffc2ba5ap+16; 0x1.3497fffc6c19ap+16; 0x1.387ffffcac8dap+16;
    0x1.3c67fffced01ap+16; 0x1.404ffffd2d75ap+16; 0x1.4437fffd6de9ap+16; 0x1.481ffffdae5dap+16;
    0x1.4c07fffdeed1ap+16; 0x1.4feffffe2f45ap+16; 0x1.53d7fffe6fb9ap+16; 0x1.57bffffeb02dap+16;
    0x1.5ba7fffef0a1ap+16; 0x1.5f8fffff3115ap+16; 0x1.6377ffff7189ap+16; 0x1.675fffffb1fdap+16;
    0x1.6b47fffff271ap+16; 0x1.6f30000032e5ap+16; 0x1.731800007359ap+16; 0x1.77000000b3cdap+16;
    0x1.7ae80000f441ap+16; 0x1.7ed0000134b5ap+16; 0x1.82b800017529ap+16; 0x1.86a00001b59dap+16;
    0x1.8a880001f611ap+16; 0x1.8e7000023685ap+16; 0x1.9258000276f9ap+16; 0x1.96400002b76dap+16;
    0x1.9a280002f7e1ap+16; 0x1.9e1000033855ap+16; 0x1.a1f8000378c9ap+16; 0x1.a5e00003b93dap+16;
    0x1.a9c80003f9b1ap+16; 0x1.adb000043a25ap+16; 0x1.b19800047a99ap+16; 0x1.b5800004bb0dap+16;
    0x1.b9680004fb81ap+16; 0x1.bd5000053bf5ap+16; 0x1.c13800057c69ap+16; 0x1.c5200005bcddap+16;
    0x1.c9080005fd51ap+16; 0x1.ccf000063dc5ap+16; 0x1.d0d800067e39ap+16; 0x1.d4c00006beadap+16;
    0x1.d8a80006ff21ap+16; 0x1.dc9000073f95ap+16; 0x1.e07800078009ap+16; 0x1.e4600007c07dap+16;
    0x1.e848000800f1ap+16; 0x1.ec3000084165ap+16; 0x1.f018000881d9ap+16; 0x1.f4000008c24dap+16;
    0x1.f7e8000902c1ap+16; 0x1.fbd000094335ap+16; 0x1.ffb8000983a9ap+16; 0x1.01d0000470c6dp+17;
    0x1.03c4000416eedp+17; 0x1.05b80003bd16dp+17; 0x1.07ac0003633edp+17; 0x1.09a000030966dp+17;
    0x1.0b940002af8edp+17; 0x1.0d88000255b6dp+17; 0x1.0f7c0001fbdedp+17; 0x1.11700001a206dp+17;
    0x1.13640001482edp+17; 0x1.15580000ee56dp+17; 0x1.174c0000947edp+17; 0x1.194000003aa6dp+17;
    0x1.1b33ffffe0cedp+17; 0x1.1d27ffff86f6dp+17; 0x1.1f1bffff2d1edp+17; 0x1.210ffffed346dp+17;
    0x1.2303fffe796edp+17; 0x1.24f7fffe1f96dp+17; 0x1.26ebfffdc5bedp+17; 0x1.28dffffd6be6dp+17;
    0x1.2ad3fffd120edp+17; 0x1.2cc7fffcb836dp+17; 0x1.2ebbfffc5e5edp+17; 0x1.30affffc0486dp+17;
    0x1.32a3fffbaaaedp+17; 0x1.3497fffb50d6dp+17; 0x1.368bfffaf6fedp+17; 0x1.387ffffa9d26dp+17;
    0x1.3a73fffa434edp+17; 0x1.3c67fff9e976dp+17; 0x1.3e5bfff98f9edp+17; 0x1.404ffff935c6dp+17;
    0x1.4243fff8dbeedp+17; 0x1.4437fff88216dp+17; 0x1.462bfff8283edp+17; 0x1.481ffff7ce66dp+17;
    0x1.4a13fff7748edp+17; 0x1.4c07fff71ab6dp+17; 0x1.4dfbfff6c0dedp+17; 0x1.4feffff66706dp+17;
    0x1.51e3fff60d2edp+17; 0x1.53d7fff5b356dp+17; 0x1.55cbfff5597edp+17; 0x1.57bffff4ffa6dp+17;
    0x1.59b3fff4a5cedp+17; 0x1.5ba7fff44bf6dp+17; 0x1.5d9bfff3f21edp+17; 0x1.5f8ffff39846dp+17;
    0x1.6183fff33e6edp+17; 0x1.6377fff2e496dp+17; 0x1.656bfff28abedp+17; 0x1.675ffff230e6dp+17;
    0x1.6953fff1d70edp+17; 0x1.6b47fff17d36dp+17; 0x1.6d3bfff1235edp+17; 0x1.6f2ffff0c986dp+17;
    0x1.7123fff06faedp+17; 0x1.7317fff015d6dp+17; 0x1.750bffefbbfedp+17
  ]%float.

(** Each checkpoint is reached from the one before in [step] increments. *)
Fixpoint checkpoints_hold (step : N) (t : CDouble.double)
    (cs : list CDouble.double) : Prop :=
  match cs with
  | [] => True
  | c :: cs' => N.iter step tick t = c /\ checkpoints_hold step c cs'
  end.

Fixpoint last_checkpoint (t : CDouble.double) (cs : list CDouble.double)
    : CDouble.double :=
  match cs with
  | [] => t
  | c :: cs' => last_checkpoint c cs'
  end.

(** The text consists of white space only. *)
Fixpoint all_space (s : string) : bool :=
  match s with
  | EmptyString => true
  | String c s' => Scanf.isspace c && all_space s'
  end.

(** A pair whose SpO2 raises no alarm. *)
Definition healthy (r : Z * Z) : Prop := 95 <= snd r.

(** The calls made inside the loop. *)
Definition loop_call (e : io_event) : bool :=
  match e with
  | Fscanf _ | Printf _ => true
  | Fopen _ _ | Fclose | Getchar _ => false
  end.

Definition is_fscanf (e : io_event) : bool :=
  match e with
  | Fscanf _ => true
  | _ => false
  end.

(** The second and third lines of a status block (they do not depend on the
    clock or on the readings shown in the first line). *)
Definition pwm_line (ccr_output : Z) : option string :=
  nth_error (stdout (status_block 0%float 0 0 ccr_output 0 EmptyString)) 1.

Definition gpio_line (gpio_odr : Z) (alarm_desc : string) : option string :=
  nth_error (stdout (status_block 0%float 0 0 0 gpio_odr alarm_desc)) 2.

(** The PWM line with the duty written as the exact quotient [ccr / 10],
    for a register value that is a multiple of 5. *)
Definition exact_duty_line (ccr : Z) : string :=
  String.append "  -> [PWM] Calculated CCR Value: "
    (String.append (Printf.fmt_d ccr)
       (String.append " (Duty: "
          (String.append (Printf.fmt_d (ccr / 10))
             (String.append (if ccr mod 10 =? 0 then ".0" else ".5")
                (String.append "%)" Printf.nl))))).

Definition duty_line_ok (k : nat) : bool :=
  match pwm_line (5 * Z.of_nat k) with
  | Some line => String.eqb line (exact_duty_line (5 * Z.of_nat k))
  | None => false
  end.

(** The four GPIO lines a status block can show. *)
Definition gpio_lines : list (option string) :=
  [ Some (String.append "  -> [GPIO] Port D ODR Value: 0xFFFF (SENSOR ERROR)" Printf.nl);
    Some (String.append "  -> [GPIO] Port D ODR Value: 0xAAAA (CRITICAL: Odd Pins ON)" Printf.nl);
    Some (String.append "  -> [GPIO] Port D ODR Value: 0x5555 (WARNING: Even Pins ON)" Printf.nl);
    Some (String.append "  -> [GPIO] Port D ODR Value: 0x0000 (NORMAL)" Printf.nl) ].

(** The clock value [t] is shown by [%.3f] as [n] thousandths. *)
Definition shows_thousandths (t : CDouble.double) (n : N) : bool :=
  match Prim2SF t with
  | S754_zero false => (n =? 0)%N
  | S754_finite false m e => Printf.scaled_decimal 3 m e =? Z.of_N n
  | _ => false
  end.

(** The next [k] clock values, from [t], show [n], [n + 1], ... thousandths. *)
Fixpoint times_exact (k : nat) (t : CDouble.double) (n : N) : bool :=
  match k with
  | O => true
  | S k' => shows_thousandths t n && times_exact k' (tick t) (N.succ n)
  end.

(** A pair whose SpO2 raises an alarm. *)
Definition alarming (r : Z * Z) : Prop := snd r < 95.

(* ------------------------------------------------------------------ *)
(** ** The PWM mapper *)

Section PwmMapper.

Lemma max_hr_as_int : CDouble.to_int MAX_HR_LIMIT = 200.
Proof. vm_compute. reflexivity. Qed.

Lemma pwm_table : forallb pwm_table_ok (seq 0 201) = true.
Proof. vm_compute. reflexivity. Qed.

Lemma pwm_scaled_in_range (h : Z) :
  0 <= h <= 200 ->
  CDouble.to_int (pwm_scaled h) = 5 * h
  /\ CDouble.int_cast_defined (pwm_scaled h) = true.
Proof.
  intros Hh.
  pose proof pwm_table as T.
  rewrite forallb_forall in T.
  specialize (T (Z.to_nat h)).
  assert (Hin : In (Z.to_nat h) (seq 0 201)) by (apply in_seq; lia).
  apply T in Hin. unfold pwm_table_ok in Hin.
  rewrite Z2Nat.id in Hin by lia.
  apply andb_prop in Hin. destruct Hin as [E D].
  apply Z.eqb_eq in E. split; assumption.
Qed.

Lemma clamp_hr_range (h : Z) : 0 <= clamp_hr h <= 200.
Proof. unfold clamp_hr. lia. Qed.

(** The two [if]s of the source compute [clamp_hr]. *)
Lemma compute_pwm_register_unfold (h : Z) :
  compute_pwm_register h = CDouble.to_int (pwm_scaled (clamp_hr h)).
Proof.
  unfold compute_pwm_register. rewrite max_hr_as_int.
  unfold clamp_hr.
  destruct (h >? 200) eqn:E1.
  - apply Z.gtb_lt in E1.
    replace (200 <? 0) with false by reflexivity.
    f_equal. f_equal. lia.
  - assert (h <= 200) by (destruct (Z.gtb_spec h 200); [discriminate | lia]).
    destruct (h <? 0) eqn:E2.
    + apply Z.ltb_lt in E2. f_equal. f_equal. lia.
    + apply Z.ltb_ge in E2. f_equal. f_equal. lia.
Qed.

Lemma compute_pwm_register_linear (h : Z) :
  compute_pwm_register h = 5 * clamp_hr h.
Proof.
  rewrite compute_pwm_register_unfold.
  apply pwm_scaled_in_range, clamp_hr_range.
Qed.

End PwmMapper.

(** C9: for every integer [h] the mapper returns exactly [5 * clamp(h, 0, 200)]
    (the double arithmetic is exact on the clamped range), so the result is a
    multiple of 5 and the mapper is monotone non-decreasing. *)
Theorem compute_pwm_register_exact_monotone :
  (forall h, compute_pwm_register h = 5 * clamp_hr h)
  /\ (forall h, (5 | compute_pwm_register h))
  /\ (forall h1 h2, h1 <= h2 -> compute_pwm_register h1 <= compute_pwm_register h2).
Proof.
  split; [exact compute_pwm_register_linear | split].
  - intros h. rewrite compute_pwm_register_linear.
    exists (clamp_hr h). lia.
  - intros h1 h2 Hle. rewrite !compute_pwm_register_linear.
    unfold clamp_hr. lia.
Qed.

Lemma compute_pwm_register_exact_monotone_witness :
  compute_pwm_register 37 = 5 * clamp_hr 37
  /\ (5 | compute_pwm_register 37)
  /\ (60 <= 250 /\ compute_pwm_register 60 <= compute_pwm_register 250).
Proof.
  destruct compute_pwm_register_exact_monotone as [E [D M]].
  split; [apply E | split; [apply D | split; [lia | apply M; lia]]].
Defined.

Lemma spec_pwm_linear (h : Z) : spec_pwm h = 5 * clamp_hr h.
Proof.
  unfold spec_pwm, clamp_hr.
  set (c := Z.max 0 (Z.min h 200)).
  unfold Qfloor, Qmult, Qdiv, Qinv, inject_Z. simpl Qnum. simpl Qden.
  rewrite Z.mul_1_r.
  replace (Z.pos (1 * 200 * 1)) with 200 by reflexivity.
  replace (c * 1000) with (5 * c * 200) by lia.
  apply Z.div_mul. lia.
Qed.

(** C1: for every integer heart rate the mapper returns
    [round_down(clamp(h, 0, 200) / 200 * 1000)], an integer in [0, 1000];
    it yields 1000 from 200 upwards, 0 for non-positive inputs and 500 at
    100; the conversion back to [int] is always defined, so it never fails. *)
Theorem compute_pwm_register_contract :
  forall h,
    compute_pwm_register h = spec_pwm h
    /\ 0 <= compute_pwm_register h <= 1000
    /\ CDouble.int_cast_defined (pwm_scaled (clamp_hr h)) = true
    /\ (200 <= h -> compute_pwm_register h = 1000)
    /\ (h <= 0 -> compute_pwm_register h = 0)
    /\ compute_pwm_register 100 = 500.
Proof.
  intros h.
  rewrite spec_pwm_linear, !compute_pwm_register_linear.
  pose proof (clamp_hr_range h) as R.
  repeat split; try lia.
  - apply pwm_scaled_in_range, R.
  - intros Hh. unfold clamp_hr. lia.
  - intros Hh. unfold clamp_hr. lia.
Qed.

Lemma compute_pwm_register_contract_witness :
  (200 <= 4711 /\ compute_pwm_register 4711 = 1000)
  /\ (-12 <= 0 /\ compute_pwm_register (-12) = 0).
Proof.
  split.
  - split; [lia |].
    destruct (compute_pwm_register_contract 4711) as (_ & _ & _ & Hhi & _ & _).
    apply Hhi. lia.
  - split; [lia |].
    destruct (compute_pwm_register_contract (-12)) as (_ & _ & _ & _ & Hlo & _).
    apply Hlo. lia.
Defined.

(* ------------------------------------------------------------------ *)
(** ** The alarm evaluator *)

(** C2: [evaluate_alarm_condition] is total on the integers; the tests are
    made in order and the first that holds decides: 0 gives 0xFFFF and
    SENSOR ERROR, below 90 gives 0xAAAA and CRITICAL, below 95 gives 0x5555
    and WARNING, anything else 0x0000 and NORMAL. *)
Theorem evaluate_alarm_condition_contract :
  forall s,
    (s = 0 -> evaluate_alarm_condition s = (0xFFFF, "SENSOR ERROR"%string))
    /\ (s <> 0 -> s < 90 ->
        evaluate_alarm_condition s = (0xAAAA, "CRITICAL: Odd Pins ON"%string))
    /\ (s <> 0 -> 90 <= s -> s < 95 ->
        evaluate_alarm_condition s = (0x5555, "WARNING: Even Pins ON"%string))
    /\ (s <> 0 -> 90 <= s -> 95 <= s ->
        evaluate_alarm_condition s = (0x0000, "NORMAL"%string))
    /\ fst (evaluate_alarm_condition 0) = 0xFFFF
    /\ fst (evaluate_alarm_condition 85) = 0xAAAA
    /\ fst (evaluate_alarm_condition 92) = 0x5555
    /\ fst (evaluate_alarm_condition 98) = 0x0000.
Proof.
  intros s. unfold evaluate_alarm_condition.
  repeat split; try reflexivity; intros.
  - subst s. reflexivity.
  - destruct (Z.eqb_spec s 0); [contradiction |].
    destruct (Z.ltb_spec s 90); [reflexivity | lia].
  - destruct (Z.eqb_spec s 0); [contradiction |].
    destruct (Z.ltb_spec s 90); [lia |].
    destruct (Z.ltb_spec s 95); [reflexivity | lia].
  - destruct (Z.eqb_spec s 0); [contradiction |].
    destruct (Z.ltb_spec s 90); [lia |].
    destruct (Z.ltb_spec s 95); [lia | reflexivity].
Qed.

Lemma evaluate_alarm_condition_contract_witness :
  evaluate_alarm_condition 0 = (0xFFFF, "SENSOR ERROR"%string)
  /\ evaluate_alarm_condition (-3) = (0xAAAA, "CRITICAL: Odd Pins ON"%string)
  /\ evaluate_alarm_condition 94 = (0x5555, "WARNING: Even Pins ON"%string)
  /\ evaluate_alarm_condition 100 = (0x0000, "NORMAL"%string).
Proof.
  split; [| split; [| split]].
  - destruct (evaluate_alarm_condition_contract 0) as (H & _). apply H. reflexivity.
  - destruct (evaluate_alarm_condition_contract (-3)) as (_ & H & _). apply H; lia.
  - destruct (evaluate_alarm_condition_contract 94) as (_ & _ & H & _). apply H; lia.
  - destruct (evaluate_alarm_condition_contract 100) as (_ & _ & _ & H & _). apply H; lia.
Defined.

Lemma evaluate_alarm_condition_cases (s : Z) :
  In (evaluate_alarm_condition s) alarm_pairs.
Proof.
  unfold evaluate_alarm_condition, alarm_pairs.
  destruct (s =? 0); [simpl; tauto |].
  destruct (s <? 90); [simpl; tauto |].
  destruct (s <? 95); simpl; tauto.
Qed.

(** C10: the label is one of four fixed strings, the mask one of four fixed
    values, and each mask goes with exactly one label in every call. *)
Theorem evaluate_alarm_condition_pairing :
  forall s,
    let mask := fst (evaluate_alarm_condition s) in
    let desc := snd (evaluate_alarm_condition s) in
    In desc ["SENSOR ERROR"; "CRITICAL: Odd Pins ON"; "WARNING: Even Pins ON"; "NORMAL"]%string
    /\ In mask [0xFFFF; 0xAAAA; 0x5555; 0x0000]
    /\ (mask = 0xFFFF <-> desc = "SENSOR ERROR"%string)
    /\ (mask = 0xAAAA <-> desc = "CRITICAL: Odd Pins ON"%string)
    /\ (mask = 0x5555 <-> desc = "WARNING: Even Pins ON"%string)
    /\ (mask = 0x0000 <-> desc = "NORMAL"%string).
Proof.
  intros s mask desc. subst mask desc.
  pose proof (evaluate_alarm_condition_cases s) as H.
  unfold alarm_pairs in H. simpl in H.
  destruct H as [H | [H | [H | [H | []]]]]; rewrite <- H; simpl;
    repeat split; try tauto; try discriminate; intros; try discriminate.
Qed.

(* ------------------------------------------------------------------ *)
(** ** The scanner consumes input *)

Section ScannerProgress.

Import Scanf.

Lemma skip_space_length (s : string) :
  (String.length (skip_space s) <= String.length s)%nat.
Proof.
  induction s as [| c s IH]; simpl; [lia |].
  destruct (isspace c); simpl; lia.
Qed.

Lemma scan_digits_length (s : string) :
  forall acc, (String.length (snd (scan_digits s acc)) <= String.length s)%nat.
Proof.
  induction s as [| c s IH]; intros acc; cbn [scan_digits]; [simpl; lia |].
  destruct (isdigit c); cbn [snd String.length]; [| lia].
  specialize (IH (10 * acc + digit_value c)). lia.
Qed.

Lemma scan_d_shorter (s : string) (v : Z) (rest : string) :
  scan_d s = Converted v rest ->
  (String.length rest < String.length s)%nat.
Proof.
  unfold scan_d. pose proof (skip_space_length s) as Hs.
  destruct (skip_space s) as [| c s'] eqn:Esk; [discriminate |].
  simpl in Hs.
  set (body := if (Ascii.eqb c "-" || Ascii.eqb c "+")%bool then s' else String c s').
  assert (Hb : (String.length body <= S (String.length s'))%nat).
  { subst body. destruct (Ascii.eqb c "-" || Ascii.eqb c "+")%bool; simpl; lia. }
  destruct body as [| d b'] eqn:Eb; [discriminate |].
  destruct (isdigit d) eqn:Ed; [| discriminate].
  destruct (scan_digits (String d b') 0) as [v' rest'] eqn:Esd.
  intros H. inversion H; subst rest'. clear H.
  cbn [scan_digits] in Esd. rewrite Ed in Esd.
  pose proof (scan_digits_length b' (10 * 0 + digit_value d)) as Hd.
  rewrite Esd in Hd. cbn [snd String.length] in Hd, Hb. lia.
Qed.

Lemma fscanf_shorter (s : string) :
  ret (fscanf_d_comma_d s) = 2 ->
  (String.length (unread (fscanf_d_comma_d s)) < String.length s)%nat.
Proof.
  unfold fscanf_d_comma_d.
  destruct (scan_d s) as [hr s1 | |] eqn:E1; simpl; try discriminate.
  apply scan_d_shorter in E1.
  destruct s1 as [| c s2]; simpl; [discriminate |].
  destruct (Ascii.eqb c ","); simpl; [| discriminate].
  destruct (scan_d s2) as [spo2 s3 | |] eqn:E2; simpl; try discriminate.
  apply scan_d_shorter in E2. simpl in E1. intros _. lia.
Qed.

End ScannerProgress.

(* ------------------------------------------------------------------ *)
(** ** The read loop as a run over the converted pairs *)

Section ReadLoop.

Lemma read_loop_scan_all (fuel : nat) :
  forall s st,
    (String.length s < fuel)%nat ->
    read_loop fuel s st =
    log_scan (snd (scan_all fuel s)) (fold_left process_record (fst (scan_all fuel s)) st)
    /\ snd (scan_all fuel s) <> 2.
Proof.
  induction fuel as [| fuel IH]; intros s st Hlen; [lia |].
  cbn [read_loop scan_all].
  destruct (Z.eqb_spec (Scanf.ret (Scanf.fscanf_d_comma_d s)) 2) as [E | E].
  - pose proof (fscanf_shorter s E) as Hsh.
    destruct (IH (Scanf.unread (Scanf.fscanf_d_comma_d s))
                 (loop_body (Scanf.hr_reading (Scanf.fscanf_d_comma_d s))
                            (Scanf.spo2_reading (Scanf.fscanf_d_comma_d s))
                            (log_scan 2 st))) as [IH1 IH2]; [lia |].
    destruct (scan_all fuel (Scanf.unread (Scanf.fscanf_d_comma_d s))) as [recs last].
    cbn [fst snd] in *. split; [| exact IH2].
    rewrite E. exact IH1.
  - cbn [fst snd fold_left]. split; [reflexivity | exact E].
Qed.

(** Any amount of fuel above the length of the stream gives the same
    result: the C loop terminates on every input. *)
Lemma scan_all_fuel (fuel1 : nat) :
  forall fuel2 s,
    (String.length s < fuel1)%nat -> (String.length s < fuel2)%nat ->
    scan_all fuel1 s = scan_all fuel2 s.
Proof.
  induction fuel1 as [| fuel1 IH]; intros fuel2 s H1 H2; [lia |].
  destruct fuel2 as [| fuel2]; [lia |].
  simpl.
  destruct (Z.eqb_spec (Scanf.ret (Scanf.fscanf_d_comma_d s)) 2) as [E | E];
    [| reflexivity].
  pose proof (fscanf_shorter s E) as Hsh.
  rewrite (IH fuel2) by lia. reflexivity.
Qed.

Lemma read_loop_fuel (fuel1 fuel2 : nat) (s : string) (st : loop_state) :
  (String.length s < fuel1)%nat -> (String.length s < fuel2)%nat ->
  read_loop fuel1 s st = read_loop fuel2 s st.
Proof.
  intros H1 H2.
  destruct (read_loop_scan_all fuel1 s st H1) as [E1 _].
  destruct (read_loop_scan_all fuel2 s st H2) as [E2 _].
  rewrite E1, E2, (scan_all_fuel fuel1 fuel2 s H1 H2). reflexivity.
Qed.

(** The equations of [records_of]. *)
Lemma records_of_step (s : string) :
  records_of s =
  let r := Scanf.fscanf_d_comma_d s in
  if Scanf.ret r =? 2
  then (Scanf.hr_reading r, Scanf.spo2_reading r) :: records_of (Scanf.unread r)
  else [].
Proof.
  unfold records_of at 1. cbv zeta. cbn [scan_all].
  destruct (Z.eqb_spec (Scanf.ret (Scanf.fscanf_d_comma_d s)) 2) as [E | E];
    [| reflexivity].
  pose proof (fscanf_shorter s E) as Hsh.
  rewrite (scan_all_fuel (String.length s)
             (S (String.length (Scanf.unread (Scanf.fscanf_d_comma_d s))))) by lia.
  unfold records_of.
  destruct (scan_all _ _). reflexivity.
Qed.

End ReadLoop.

(* ------------------------------------------------------------------ *)
(** ** Runs of [main] *)

Section Runs.

Lemma stdout_app (t1 t2 : list io_event) :
  stdout (t1 ++ t2) = stdout t1 ++ stdout t2.
Proof.
  induction t1 as [| e t1 IH]; [reflexivity |].
  destruct e; simpl; rewrite IH; reflexivity.
Qed.

Lemma stdout_map_Printf (l : list string) : stdout (map Printf l) = l.
Proof. induction l as [| x l IH]; simpl; [| rewrite IH]; reflexivity. Qed.

Lemma loop_body_trace (hr spo2 : Z) (st : loop_state) :
  trace (loop_body hr spo2 st) =
  trace st ++
  (if display_filter (packet_counter (loop_body hr spo2 st))
                     (fst (evaluate_alarm_condition spo2))
   then shown_block st hr spo2 else []).
Proof.
  unfold loop_body, shown_block.
  destruct (evaluate_alarm_condition spo2) as [mask desc]. reflexivity.
Qed.

Lemma loop_body_counter (hr spo2 : Z) (st : loop_state) :
  packet_counter (loop_body hr spo2 st) = CInt.wrap (packet_counter st + 1).
Proof.
  unfold loop_body.
  destruct (evaluate_alarm_condition spo2) as [mask desc]. reflexivity.
Qed.

Lemma loop_body_clock (hr spo2 : Z) (st : loop_state) :
  sys_time_sec (loop_body hr spo2 st) = tick (sys_time_sec st).
Proof.
  unfold loop_body.
  destruct (evaluate_alarm_condition spo2) as [mask desc]. reflexivity.
Qed.

Lemma display_filter_iff (c mask : Z) :
  display_filter c mask = true <-> c = 1 \/ (1000 | c) \/ mask <> 0x0000.
Proof.
  unfold display_filter, CInt.c_rem, STATUS_NORMAL.
  rewrite !orb_true_iff, negb_true_iff, Z.eqb_neq, !Z.eqb_eq.
  rewrite (Z.rem_divide c 1000) by discriminate.
  tauto.
Qed.

Lemma process_record_counter (st : loop_state) (r : Z * Z) :
  packet_counter (process_record st r) = CInt.wrap (packet_counter st + 1).
Proof. unfold process_record. rewrite loop_body_counter. reflexivity. Qed.

(** Below [INT_MAX] the counter is the number of pairs processed. *)
Lemma run_counter (recs : list (Z * Z)) :
  forall st,
    0 <= packet_counter st ->
    packet_counter st + Z.of_nat (List.length recs) <= CInt.INT_MAX ->
    packet_counter (fold_left process_record recs st)
    = packet_counter st + Z.of_nat (List.length recs).
Proof.
  induction recs as [| r recs IH]; intros st H0 Hmax.
  - cbn [fold_left List.length]. lia.
  - cbn [fold_left]. cbn [List.length] in Hmax |- *.
    rewrite Nat2Z.inj_succ in Hmax |- *.
    assert (E : packet_counter (process_record st r) = packet_counter st + 1).
    { rewrite process_record_counter. unfold CInt.wrap, CInt.INT_MAX in *.
      rewrite Z.mod_small by lia. lia. }
    rewrite IH; rewrite E; lia.
Qed.

(** A successful [fopen] is followed by the loop over the converted pairs,
    a last call of [fscanf] that does not return 2, and the epilogue. *)
Lemma main_opened (w : world) (content : string) :
  files w SOURCE_FILE = Some content ->
  exists last,
    last <> 2
    /\ main w =
       (0, trace (fold_left process_record (records_of content) initial_state)
           ++ [ Fscanf last; Fclose; Printf completion_notice;
                Printf exit_prompt; Getchar (getchar (stdin w)) ]).
Proof.
  intros Hf. unfold main. rewrite Hf.
  destruct (read_loop_scan_all (S (String.length content)) content initial_state)
    as [E Hlast]; [lia |].
  exists (snd (scan_all (S (String.length content)) content)).
  split; [exact Hlast |].
  rewrite E. unfold log_scan, records_of. cbn [trace].
  rewrite <- app_assoc. reflexivity.
Qed.

(** Processing pairs only ever appends status blocks and [fscanf] calls. *)
Lemma process_record_trace (st : loop_state) (r : Z * Z) :
  trace (process_record st r) =
  trace st ++ Fscanf 2 ::
  (if display_filter (packet_counter (process_record st r))
                     (fst (evaluate_alarm_condition (snd r)))
   then shown_block st (fst r) (snd r) else []).
Proof.
  unfold process_record. rewrite loop_body_trace.
  unfold log_scan at 1. cbn [trace]. rewrite <- app_assoc. reflexivity.
Qed.

End Runs.

(* ------------------------------------------------------------------ *)
(** ** The display filter *)

Section DisplayFilter.

Lemma shown_block_lines (st : loop_state) (hr spo2 : Z) :
  List.length (stdout (shown_block st hr spo2)) = 4%nat.
Proof. reflexivity. Qed.

Lemma steady_2500_run :
  records_of steady_2500 = repeat (80, 97) 2500
  /\ printed_counters (repeat (80, 97) 2500) initial_state = [1; 1000; 2000]
  /\ stdout (snd (main (world_with steady_2500))) =
     (start_banner ++ steady_block "0.000" ++ steady_block "0.999"
      ++ steady_block "1.999" ++ [completion_notice; exit_prompt])%list.
Proof. vm_compute. repeat split. Qed.

End DisplayFilter.

(** C3: the loop body writes the status block of a pair exactly when the
    incremented sample counter is 1, or is a multiple of 1000, or the alarm
    mask is not 0x0000; for 2500 pairs [80,97] the blocks written are those of
    the counters 1, 1000 and 2000. *)
Theorem status_block_display_rule :
  (forall hr spo2 st,
      let st' := loop_body hr spo2 st in
      let c := packet_counter st' in
      let mask := fst (evaluate_alarm_condition spo2) in
      (c = 1 \/ (1000 | c) \/ mask <> 0x0000 ->
       trace st' = trace st ++ shown_block st hr spo2)
      /\ (~ (c = 1 \/ (1000 | c) \/ mask <> 0x0000) -> trace st' = trace st)
      /\ List.length (stdout (shown_block st hr spo2)) = 4%nat)
  /\ (forall recs,
         Z.of_nat (List.length recs) <= CInt.INT_MAX ->
         packet_counter (fold_left process_record recs initial_state)
         = Z.of_nat (List.length recs))
  /\ records_of steady_2500 = repeat (80, 97) 2500
  /\ printed_counters (repeat (80, 97) 2500) initial_state = [1; 1000; 2000]
  /\ stdout (snd (main (world_with steady_2500))) =
     start_banner ++ steady_block "0.000" ++ steady_block "0.999"
     ++ steady_block "1.999" ++ [completion_notice; exit_prompt].
Proof.
  split; [| split; [| exact steady_2500_run]].
  2: { intros recs Hlen. rewrite run_counter; cbn [packet_counter initial_state]; lia. }
  intros hr spo2 st st' c mask. subst st' c mask.
  rewrite loop_body_trace.
  repeat split.
  - intros H. apply display_filter_iff in H. rewrite H. reflexivity.
  - intros H.
    destruct (display_filter _ _) eqn:E.
    + apply display_filter_iff in E. contradiction.
    + apply app_nil_r.
Qed.

Lemma status_block_display_rule_witness :
  trace (loop_body 80 92 initial_state)
  = trace initial_state ++ shown_block initial_state 80 92
  /\ trace (loop_body 80 97 (loop_body 80 97 initial_state))
     = trace (loop_body 80 97 initial_state)
  /\ packet_counter (fold_left process_record [(80, 97); (81, 96); (82, 0)] initial_state)
     = 3.
Proof.
  destruct status_block_display_rule as (Rule & Count & _).
  split; [| split].
  3: { apply (Count [(80, 97); (81, 96); (82, 0)]). vm_compute. discriminate. }
  - destruct (Rule 80 92 initial_state) as (Shown & _ & _).
    apply Shown. right. right. vm_compute. discriminate.
  - destruct (Rule 80 97 (loop_body 80 97 initial_state)) as (_ & Hidden & _).
    apply Hidden.
    replace (packet_counter (loop_body 80 97 (loop_body 80 97 initial_state)))
      with 2 by (vm_compute; reflexivity).
    replace (fst (evaluate_alarm_condition 97)) with 0 by reflexivity.
    intros [H | [[k H] | H]]; [discriminate | lia | apply H; reflexivity].
Defined.

(* ------------------------------------------------------------------ *)
(** ** Exit status and the shape of the output *)

Section ExitStatus.

Lemma run_trace_extends (recs : list (Z * Z)) :
  forall st, exists ext,
    trace (fold_left process_record recs st) = trace st ++ ext.
Proof.
  induction recs as [| r recs IH]; intros st.
  - exists []. symmetry. apply app_nil_r.
  - cbn [fold_left]. destruct (IH (process_record st r)) as [ext E].
    rewrite E, process_record_trace.
    eexists. rewrite <- app_assoc. reflexivity.
Qed.

Lemma main_missing (w : world) :
  files w SOURCE_FILE = None ->
  main w = (1, Fopen SOURCE_FILE false :: map Printf missing_file_diagnostic).
Proof. intros Hf. unfold main. rewrite Hf. reflexivity. Qed.

Lemma main_opened_stdout (w : world) (content : string) :
  files w SOURCE_FILE = Some content ->
  exit_code (main w) = 0
  /\ exists shown,
       stdout (snd (main w)) = start_banner ++ shown ++ [completion_notice; exit_prompt]
       /\ stdout (trace (fold_left process_record (records_of content) initial_state))
          = start_banner ++ shown.
Proof.
  intros Hf. destruct (main_opened w content Hf) as (last & _ & E).
  rewrite E. split; [reflexivity |].
  destruct (run_trace_extends (records_of content) initial_state) as [ext Eext].
  exists (stdout ext). cbn [snd].
  rewrite stdout_app, Eext, stdout_app.
  unfold initial_state. cbn [trace stdout].
  rewrite stdout_map_Printf.
  rewrite <- app_assoc. split; reflexivity.
Qed.

End ExitStatus.

(** C4: when [SOURCE_FILE] cannot be opened the program writes its two-line
    diagnostic, returns 1 and never calls [fscanf]; when it can be opened the
    loop runs until [fscanf] no longer returns 2, the completion notice is
    written and the program returns 0 (whatever the number of pairs, zero
    included).  The texts are those of the source, [lf] being its [\n]. *)
Theorem main_exit_status :
  forall w,
    let lf := String "010" EmptyString in
    match files w SOURCE_FILE with
    | None =>
        exit_code (main w) = 1
        /\ stdout (snd (main w)) =
           [ String.append "[SYSTEM ERROR] Input file 'patient_data.csv' is missing." lf;
             String.append "Please verify the file location." lf ]
        /\ forallb (fun e => match e with Fscanf _ => false | _ => true end)
                   (snd (main w)) = true
    | Some content =>
        exit_code (main w) = 0
        /\ (exists last,
               last <> 2
               /\ snd (main w) =
                  trace (fold_left process_record (records_of content) initial_state)
                  ++ [ Fscanf last; Fclose;
                       Printf (String.append lf
                                 (String.append ">>> Simulation Completed Successfully." lf));
                       Printf "Press Enter to exit...";
                       Getchar (getchar (stdin w)) ])
        /\ (exists shown,
               stdout (snd (main w)) =
               [ String.append "--- BME3323 FIRMWARE SIMULATION: STARTING ---" lf;
                 String.append "--- Processing Patient Vitals... ---" (String.append lf lf) ]
               ++ shown
               ++ [ String.append lf
                      (String.append ">>> Simulation Completed Successfully." lf);
                    "Press Enter to exit..."%string ])
    end.
Proof.
  intros w lf. subst lf.
  destruct (files w SOURCE_FILE) as [content |] eqn:Hf.
  - destruct (main_opened w content Hf) as (last & Hlast & E).
    destruct (main_opened_stdout w content Hf) as (Hexit & shown & Hout & _).
    split; [exact Hexit | split].
    + exists last. split; [exact Hlast | rewrite E; reflexivity].
    + exists shown. exact Hout.
  - rewrite (main_missing w Hf). repeat split.
Qed.

Lemma main_exit_status_witness :
  (exit_code (main world_without_file) = 1
   /\ stdout (snd (main world_without_file)) =
      [ String.append "[SYSTEM ERROR] Input file 'patient_data.csv' is missing."
          (String "010" EmptyString);
        String.append "Please verify the file location." (String "010" EmptyString) ])
  /\ (exit_code (main (world_with EmptyString)) = 0
      /\ exists shown,
           stdout (snd (main (world_with EmptyString))) =
           [ String.append "--- BME3323 FIRMWARE SIMULATION: STARTING ---"
               (String "010" EmptyString);
             String.append "--- Processing Patient Vitals... ---"
               (String "010" (String "010" EmptyString)) ]
           ++ shown
           ++ [ String "010"
                  (String.append ">>> Simulation Completed Successfully."
                     (String "010" EmptyString));
                "Press Enter to exit..."%string ]).
Proof.
  split.
  - pose proof (main_exit_status world_without_file) as H.
    cbv zeta in H. cbn [files world_without_file] in H.
    destruct H as (H1 & H2 & _). split; [exact H1 | exact H2].
  - pose proof (main_exit_status (world_with EmptyString)) as H.
    cbv zeta in H.
    change (files (world_with EmptyString) SOURCE_FILE) with (Some EmptyString) in H.
    destruct H as (H1 & _ & H2). split; [exact H1 | exact H2].
Defined.

(* ------------------------------------------------------------------ *)
(** ** An input without pairs *)

(** C7, as stated, fails: on an empty file the program returns 0 but does
    not write the completion notice alone. *)
Lemma empty_file_output_not_only_notice :
  ~ (exit_code (main (world_with EmptyString)) = 0
     /\ stdout (snd (main (world_with EmptyString))) =
        [ String "010"
            (String.append ">>> Simulation Completed Successfully."
               (String "010" EmptyString)) ]).
Proof.
  intros [_ H]. vm_compute in H. discriminate H.
Qed.

(** C7 (amended): for an input from which no pair is converted, the empty
    file included, the program returns 0 and writes exactly four texts: the
    two lines of the start banner, the completion notice and the prompt
    [Press Enter to exit...]; no status block is written.  The texts are those
    of the source, [lf] being its [\n]. *)
Theorem main_without_records :
  forall w content,
    files w SOURCE_FILE = Some content ->
    records_of content = [] ->
    let lf := String "010" EmptyString in
    exit_code (main w) = 0
    /\ stdout (snd (main w)) =
       [ String.append "--- BME3323 FIRMWARE SIMULATION: STARTING ---" lf;
         String.append "--- Processing Patient Vitals... ---" (String.append lf lf);
         String.append lf (String.append ">>> Simulation Completed Successfully." lf);
         "Press Enter to exit..."%string ].
Proof.
  intros w content Hf Hrecs lf. subst lf.
  destruct (main_opened w content Hf) as (last & _ & E).
  rewrite E, Hrecs. split; reflexivity.
Qed.

Lemma main_without_records_witness :
  exit_code (main (world_with EmptyString)) = 0
  /\ stdout (snd (main (world_with EmptyString))) =
     [ String.append "--- BME3323 FIRMWARE SIMULATION: STARTING ---"
         (String "010" EmptyString);
       String.append "--- Processing Patient Vitals... ---"
         (String "010" (String "010" EmptyString));
       String "010"
         (String.append ">>> Simulation Completed Successfully."
            (String "010" EmptyString));
       "Press Enter to exit..."%string ].
Proof.
  apply (main_without_records (world_with EmptyString) EmptyString);
    reflexivity.
Defined.

(* ------------------------------------------------------------------ *)
(** ** What the program reads and writes *)

Section IoSurface.

Lemma shown_block_stdout_only (st : loop_state) (hr spo2 : Z) :
  forallb file_or_stdout (shown_block st hr spo2) = true.
Proof. reflexivity. Qed.

Lemma run_trace_file_or_stdout (recs : list (Z * Z)) :
  forall st,
    forallb file_or_stdout (trace st) = true ->
    forallb file_or_stdout (trace (fold_left process_record recs st)) = true.
Proof.
  induction recs as [| r recs IH]; intros st Hst; [exact Hst |].
  cbn [fold_left]. apply IH.
  rewrite process_record_trace, forallb_app, Hst.
  cbn [forallb file_or_stdout andb].
  destruct (display_filter _ _); [apply shown_block_stdout_only | reflexivity].
Qed.

Lemma main_depends_on_file_and_key (w w' : world) :
  files w' SOURCE_FILE = files w SOURCE_FILE ->
  getchar (stdin w') = getchar (stdin w) ->
  main w' = main w.
Proof.
  intros Hf Hk. unfold main. rewrite Hf, Hk. reflexivity.
Qed.

Lemma main_output_depends_on_file (w w' : world) :
  files w' SOURCE_FILE = files w SOURCE_FILE ->
  exit_code (main w') = exit_code (main w)
  /\ stdout (snd (main w')) = stdout (snd (main w)).
Proof.
  intros Hf. unfold main. rewrite Hf.
  destruct (files w SOURCE_FILE) as [content |]; [| split; reflexivity].
  cbn [exit_code fst snd]. split; [reflexivity |].
  rewrite !stdout_app. reflexivity.
Qed.

End IoSurface.

(** C8, as stated, fails: a run that opens the file also reads a character
    from standard input before it returns. *)
Lemma main_reads_standard_input :
  forallb file_or_stdout (snd (main (world_with_key EmptyString))) = false
  /\ In (Getchar (Some "q"%char)) (snd (main (world_with_key EmptyString))).
Proof.
  split; [vm_compute; reflexivity |].
  vm_compute. do 7 right. left. reflexivity.
Qed.

(** C8 (amended): the program opens no file but [SOURCE_FILE] and writes only
    to standard output; its exit status and output are determined by that
    file alone (not by arguments, environment, other files or the contents of
    standard input); the one other input is a single [getchar] on standard
    input, made last in a run that opened the file, whose result is dropped. *)
Theorem main_io_surface :
  forall w,
    (files w SOURCE_FILE = None ->
     forallb file_or_stdout (snd (main w)) = true)
    /\ (forall content,
           files w SOURCE_FILE = Some content ->
           exists t, snd (main w) = t ++ [Getchar (getchar (stdin w))]
                     /\ forallb file_or_stdout t = true)
    /\ (forall w',
           files w' SOURCE_FILE = files w SOURCE_FILE ->
           exit_code (main w') = exit_code (main w)
           /\ stdout (snd (main w')) = stdout (snd (main w)))
    /\ (forall w',
           files w' SOURCE_FILE = files w SOURCE_FILE ->
           getchar (stdin w') = getchar (stdin w) ->
           main w' = main w).
Proof.
  intros w. split; [| split; [| split]].
  - intros Hf. rewrite (main_missing w Hf). reflexivity.
  - intros content Hf.
    destruct (main_opened w content Hf) as (last & _ & E). rewrite E. cbn [snd].
    exists (trace (fold_left process_record (records_of content) initial_state)
            ++ [Fscanf last; Fclose; Printf completion_notice; Printf exit_prompt]).
    split.
    + rewrite <- app_assoc. reflexivity.
    + rewrite forallb_app, run_trace_file_or_stdout; reflexivity.
  - intros w'. apply main_output_depends_on_file.
  - intros w'. apply main_depends_on_file_and_key.
Qed.

Lemma main_io_surface_witness :
  forallb file_or_stdout (snd (main world_without_file)) = true
  /\ (exists t, snd (main (world_with_key EmptyString))
                = t ++ [Getchar (getchar (stdin (world_with_key EmptyString)))]
                /\ forallb file_or_stdout t = true)
  /\ stdout (snd (main (world_with_key EmptyString)))
     = stdout (snd (main (world_with EmptyString)))
  /\ main {| argv := [SOURCE_FILE]; environ := fun _ => Some SOURCE_FILE;
             files := fun _ => Some EmptyString; stdin := String "q" (String "x" EmptyString) |}
     = main (world_with_key EmptyString).
Proof.
  split; [| split; [| split]].
  - destruct (main_io_surface world_without_file) as (H & _). apply H. reflexivity.
  - destruct (main_io_surface (world_with_key EmptyString)) as (_ & H & _).
    apply (H EmptyString). reflexivity.
  - destruct (main_io_surface (world_with EmptyString)) as (_ & _ & H & _).
    apply (H (world_with_key EmptyString)). reflexivity.
  - destruct (main_io_surface (world_with_key EmptyString)) as (_ & _ & _ & H).
    apply H; reflexivity.
Defined.

(* ------------------------------------------------------------------ *)
(** ** Reading back what [%d] writes *)

Section RoundTrip.

Import Printf Scanf.
Local Open Scope string_scope.
Local Open Scope Z_scope.

Lemma append_assoc (a b c : string) : (a ++ b) ++ c = a ++ (b ++ c).
Proof. induction a as [| x a IH]; simpl; [| rewrite IH]; reflexivity. Qed.

Lemma digit_char_facts (d : Z) :
  0 <= d < 10 ->
  isdigit (digit_char d) = true /\ digit_value (digit_char d) = d.
Proof.
  intros H.
  assert (E : d = 0 \/ d = 1 \/ d = 2 \/ d = 3 \/ d = 4 \/ d = 5 \/ d = 6
              \/ d = 7 \/ d = 8 \/ d = 9) by lia.
  repeat (destruct E as [E | E]; [subst d; split; reflexivity |]).
  subst d; split; reflexivity.
Qed.

Lemma isdigit_plain (c : ascii) :
  isdigit c = true ->
  isspace c = false /\ Ascii.eqb c "-" = false /\ Ascii.eqb c "+" = false.
Proof.
  destruct c as [[] [] [] [] [] [] [] []]; intros H;
    solve [discriminate H | repeat split].
Qed.

(** Scanning the digits written for [n] continues from [n]. *)
Lemma scan_fmt_digits (fuel : nat) :
  forall n acc rest,
    0 <= n < 2 ^ Z.of_nat fuel ->
    scan_digits (fmt_digits fuel n acc ++ rest) 0 = scan_digits (acc ++ rest) n.
Proof.
  induction fuel as [| fuel IH]; intros n acc rest Hn.
  - cbn [fmt_digits]. replace n with 0 by (simpl in Hn; lia). reflexivity.
  - cbn [fmt_digits].
    assert (Hd : 0 <= n mod 10 < 10) by (apply Z.mod_pos_bound; lia).
    destruct (digit_char_facts (n mod 10) Hd) as [Hdig Hval].
    destruct (Z.ltb_spec n 10) as [Hsmall | Hbig].
    + cbn [append scan_digits]. rewrite Hdig, Hval.
      rewrite Z.mod_small by lia. reflexivity.
    + rewrite IH.
      * cbn [append scan_digits]. rewrite Hdig, Hval.
        f_equal. pose proof (Z.div_mod n 10). lia.
      * rewrite Nat2Z.inj_succ, Z.pow_succ_r in Hn by lia.
        split; [apply Z.div_pos; lia |].
        apply Z.div_lt_upper_bound; lia.
Qed.

Lemma fmt_digits_head (fuel : nat) :
  forall n acc,
    0 <= n ->
    exists d tl, fmt_digits (S fuel) n acc = String d tl /\ isdigit d = true.
Proof.
  induction fuel as [| fuel IH]; intros n acc Hn.
  - cbn [fmt_digits].
    assert (Hd : 0 <= n mod 10 < 10) by (apply Z.mod_pos_bound; lia).
    destruct (n <? 10); eexists; eexists; (split; [reflexivity |]);
      apply digit_char_facts, Hd.
  - remember (S fuel) as f. cbn [fmt_digits].
    assert (Hd : 0 <= n mod 10 < 10) by (apply Z.mod_pos_bound; lia).
    destruct (n <? 10).
    + eexists; eexists; (split; [reflexivity |]). apply digit_char_facts, Hd.
    + subst f. apply IH. apply Z.div_pos; lia.
Qed.

Lemma scan_digits_stops (rest : string) (n : Z) :
  no_leading_digit rest = true -> scan_digits rest n = (n, rest).
Proof.
  destruct rest as [| c rest]; [reflexivity |].
  cbn [no_leading_digit scan_digits]. intros H.
  apply negb_true_iff in H. rewrite H. reflexivity.
Qed.

Lemma scan_fmt_u (n : Z) (rest : string) :
  0 <= n -> no_leading_digit rest = true ->
  scan_digits (fmt_u n ++ rest) 0 = (n, rest)
  /\ exists d tl, fmt_u n = String d tl /\ isdigit d = true.
Proof.
  intros Hn Hrest. unfold fmt_u. split.
  - rewrite scan_fmt_digits.
    + cbn [append]. apply scan_digits_stops, Hrest.
    + split; [exact Hn |].
      rewrite Nat2Z.inj_succ, Z2Nat.id by apply Z.log2_nonneg.
      destruct (Z.eq_dec n 0) as [-> | Hnz]; [reflexivity |].
      apply Z.log2_spec. lia.
  - apply fmt_digits_head, Hn.
Qed.

Lemma store_int_in_range (z : Z) :
  CInt.in_range z = true -> store_int z = z.
Proof.
  unfold CInt.in_range, store_int, CInt.wrap, CInt.INT_MIN, CInt.INT_MAX,
    CInt.LONG_MIN, CInt.LONG_MAX.
  intros H. apply andb_prop in H. destruct H as [H1 H2].
  apply Z.leb_le in H1, H2.
  rewrite Z.min_r, Z.max_r by lia.
  rewrite Z.mod_small by lia. lia.
Qed.

(** [%d] reads back the integer that [%d] wrote. *)
Lemma scan_d_fmt_d (z : Z) (rest : string) :
  CInt.in_range z = true -> no_leading_digit rest = true ->
  scan_d (fmt_d z ++ rest) = Converted z rest.
Proof.
  intros Hz Hrest. unfold fmt_d.
  destruct (Z.ltb_spec z 0) as [Hneg | Hpos].
  - destruct (scan_fmt_u (- z) rest) as [Hscan (d & tl & Hhd & Hdig)];
      [lia | exact Hrest |].
    unfold scan_d. cbn [append skip_space].
    replace (isspace "-") with false by reflexivity.
    replace (Ascii.eqb "-" "-") with true by reflexivity.
    cbn [orb]. rewrite Hhd in Hscan |- *. cbn [append] in Hscan |- *.
    rewrite Hdig, Hscan, Z.opp_involutive, store_int_in_range by exact Hz.
    reflexivity.
  - destruct (scan_fmt_u z rest) as [Hscan (d & tl & Hhd & Hdig)];
      [lia | exact Hrest |].
    unfold scan_d. rewrite Hhd in Hscan |- *. cbn [append] in Hscan |- *.
    destruct (isdigit_plain d Hdig) as (Hsp & Hminus & Hplus).
    cbn [skip_space]. rewrite Hsp, Hminus, Hplus. cbn [orb].
    rewrite Hdig, Hscan, store_int_in_range by exact Hz.
    reflexivity.
Qed.

Lemma fscanf_csv_line (r : Z * Z) (rest : string) :
  int_pair r ->
  fscanf_d_comma_d (csv_line r ++ rest)
  = {| ret := 2; hr_reading := fst r; spo2_reading := snd r;
       unread := nl ++ rest |}.
Proof.
  intros [Hhr Hspo2]. unfold csv_line, fscanf_d_comma_d.
  rewrite append_assoc. cbn [append].
  rewrite scan_d_fmt_d by (exact Hhr || reflexivity).
  replace (Ascii.eqb "," ",") with true by reflexivity.
  rewrite append_assoc.
  rewrite scan_d_fmt_d by (exact Hspo2 || reflexivity).
  reflexivity.
Qed.

(** White space before a pair is skipped. *)
Lemma records_of_skip (c : ascii) (s : string) :
  isspace c = true -> records_of (String c s) = records_of s.
Proof.
  intros Hc.
  rewrite (records_of_step (String c s)), (records_of_step s). cbv zeta.
  unfold fscanf_d_comma_d.
  assert (E : scan_d (String c s) = scan_d s).
  { unfold scan_d. cbn [skip_space]. rewrite Hc. reflexivity. }
  rewrite E.
  destruct (scan_d s) as [hr s1 | |]; reflexivity.
Qed.

(** A file of well-formed lines followed by anything: the pairs of the lines
    are converted, then the conversion goes on in what follows. *)
Lemma records_of_csv (recs : list (Z * Z)) (tail : string) :
  Forall int_pair recs ->
  records_of (csv recs ++ tail) = (recs ++ records_of tail)%list.
Proof.
  intros Hall. induction Hall as [| r recs Hr Hall IH]; [reflexivity |].
  cbn [csv]. rewrite append_assoc, records_of_step, fscanf_csv_line by exact Hr.
  cbn [ret hr_reading spo2_reading unread]. cbv zeta.
  change (2 =? 2) with true. cbv iota.
  rewrite <- surjective_pairing. cbn [List.app]. f_equal.
  unfold nl. cbn [append].
  rewrite records_of_skip by reflexivity. exact IH.
Qed.

Lemma records_of_failed (tail : string) :
  ret (fscanf_d_comma_d tail) <> 2 -> records_of tail = [].
Proof.
  intros H. rewrite records_of_step. cbv zeta.
  destruct (Z.eqb_spec (ret (fscanf_d_comma_d tail)) 2); [contradiction | reflexivity].
Qed.

End RoundTrip.

(* ------------------------------------------------------------------ *)
(** ** Malformed input *)

(** C5, as stated, fails: the pair that precedes the fault on a malformed
    line is processed and shown, and a blank line does not end the loop. *)
Lemma malformed_line_is_not_the_unit :
  LineSpec.records three_field_line = []
  /\ records_of three_field_line = [(100, 98)]
  /\ In (String.append "Time: 0.000 s | BPM: 100 | SpO2: 98" Printf.nl)
        (stdout (snd (main (world_with three_field_line))))
  /\ LineSpec.records blank_line_file = [(1, 98)]
  /\ records_of blank_line_file = [(1, 98); (2, 98)]
  /\ records_of three_field_line <> LineSpec.records three_field_line.
Proof.
  vm_compute. repeat split; try (right; right; left; reflexivity).
  discriminate.
Qed.

(** C5 (amended): the loop ends, without any message, at the first place in
    the stream where [fscanf] does not convert two integers.  For a file of
    well-formed lines followed by text on which the conversion fails, exactly
    the pairs of those lines are processed, and exit status and output are
    those of the file that ends after the lines. *)
Theorem read_loop_stops_at_failed_conversion :
  forall recs tail w w_cut,
    Forall int_pair recs ->
    Scanf.ret (Scanf.fscanf_d_comma_d tail) <> 2 ->
    files w SOURCE_FILE = Some (String.append (csv recs) tail) ->
    files w_cut SOURCE_FILE = Some (csv recs) ->
    records_of (String.append (csv recs) tail) = recs
    /\ exit_code (main w) = 0
    /\ exit_code (main w_cut) = 0
    /\ stdout (snd (main w)) = stdout (snd (main w_cut))
    /\ stdout (snd (main w))
       = stdout (trace (fold_left process_record recs initial_state))
         ++ [completion_notice; exit_prompt].
Proof.
  intros recs tail w w_cut Hall Hfail Hf Hcut.
  assert (E1 : records_of (String.append (csv recs) tail) = recs).
  { rewrite records_of_csv, records_of_failed, app_nil_r by assumption.
    reflexivity. }
  assert (E2 : records_of (csv recs) = recs).
  { replace (csv recs) with (String.append (csv recs) EmptyString).
    - rewrite records_of_csv by assumption. apply app_nil_r.
    - clear. induction (csv recs) as [| c s IH]; simpl; [| rewrite IH]; reflexivity. }
  destruct (main_opened w _ Hf) as (last & _ & E).
  destruct (main_opened w_cut _ Hcut) as (last' & _ & E').
  rewrite E, E', E1, E2. cbn [exit_code fst snd].
  rewrite !stdout_app. repeat split.
Qed.

Lemma read_loop_stops_at_failed_conversion_witness :
  records_of (String.append (csv [(72, 96); (-5, 0)]) "oops,1") = [(72, 96); (-5, 0)]
  /\ exit_code (main (world_with (String.append (csv [(72, 96); (-5, 0)]) "oops,1"))) = 0
  /\ stdout (snd (main (world_with (String.append (csv [(72, 96); (-5, 0)]) "oops,1"))))
     = stdout (snd (main (world_with (csv [(72, 96); (-5, 0)])))).
Proof.
  destruct (read_loop_stops_at_failed_conversion
              [(72, 96); (-5, 0)] "oops,1"
              (world_with (String.append (csv [(72, 96); (-5, 0)]) "oops,1"))
              (world_with (csv [(72, 96); (-5, 0)])))
    as (H1 & H2 & _ & H3 & _).
  - repeat constructor.
  - vm_compute. discriminate.
  - reflexivity.
  - reflexivity.
  - split; [exact H1 | split; [exact H2 | exact H3]].
Defined.

(* ------------------------------------------------------------------ *)
(** ** The simulated clock *)

Section Clock.

Lemma tick_constant_is_nearest : tick_constant_nearest = true.
Proof. vm_compute. reflexivity. Qed.

Lemma process_record_clock (st : loop_state) (r : Z * Z) :
  sys_time_sec (process_record st r) = tick (sys_time_sec st).
Proof. unfold process_record. rewrite loop_body_clock. reflexivity. Qed.

(** One increment for each pair processed. *)
Lemma run_clock (recs : list (Z * Z)) :
  forall st,
    sys_time_sec (fold_left process_record recs st)
    = N.iter (N.of_nat (List.length recs)) tick (sys_time_sec st).
Proof.
  induction recs as [| r recs IH]; intros st; [reflexivity |].
  cbn [fold_left List.length].
  rewrite IH, process_record_clock, Nat2N.inj_succ, N.iter_succ_r.
  reflexivity.
Qed.

Lemma checkpoints_compose (step : N) (cs : list CDouble.double) :
  forall t,
    checkpoints_hold step t cs ->
    N.iter (step * N.of_nat (List.length cs)) tick t = last_checkpoint t cs.
Proof.
  induction cs as [| c cs IH]; intros t H.
  - cbn [List.length last_checkpoint]. rewrite N.mul_0_r. reflexivity.
  - destruct H as [Hc Hcs].
    cbn [List.length last_checkpoint].
    rewrite Nat2N.inj_succ, N.mul_succ_r, N.iter_add, Hc.
    apply IH, Hcs.
Qed.

Lemma clock_checkpoints_hold :
  checkpoints_hold 1000000 0%float clock_checkpoints.
Proof. vm_compute. repeat split. Qed.

Lemma clock_after_eq (n : N) : clock_after n = N.iter n tick 0%float.
Proof. reflexivity. Qed.

Lemma iterate_191_million :
  N.iter (1000000 * N.of_nat (List.length clock_checkpoints)) tick 0%float
  = 0x1.750bffefbbfedp+17%float.
Proof.
  rewrite (checkpoints_compose _ _ _ clock_checkpoints_hold). reflexivity.
Qed.

Lemma iterate_last_leg :
  N.iter 337246 tick 0x1.750bffefbbfedp+17%float = 0x1.75b49f6c8b439p+17%float.
Proof. vm_compute. reflexivity. Qed.

Lemma clock_after_191337246 :
  clock_after 191337246 = 0x1.75b49f6c8b439p+17%float.
Proof.
  rewrite clock_after_eq.
  replace 191337246%N
    with (337246 + 1000000 * N.of_nat (List.length clock_checkpoints))%N
    by reflexivity.
  rewrite N.iter_add, iterate_191_million. exact iterate_last_leg.
Qed.

Lemma time_shown_191337246 : time_shown 191337246 = "191337.245"%string.
Proof.
  unfold time_shown. rewrite clock_after_191337246.
  vm_compute. reflexivity.
Qed.

End Clock.

(** C6: the clock starts at zero and is advanced once per processed pair,
    after the block is written, by the double nearest to 0.001, so the block
    of sample [n + 1] shows the clock after [n] increments; the three samples
    of the example show 0.000, 0.001 and 0.002.  The increments are rounded
    double additions: after 191337246 of them the clock shows 191337.245,
    not the 191337.246 that [(n - 1) * 0.001] gives for sample 191337247. *)
Theorem clock_accumulates_rounding :
  sys_time_sec initial_state = 0%float
  /\ tick_constant_nearest = true
  /\ (forall hr spo2 st,
         sys_time_sec (loop_body hr spo2 st) = tick (sys_time_sec st))
  /\ (forall recs,
         sys_time_sec (fold_left process_record recs initial_state)
         = clock_after (N.of_nat (List.length recs)))
  /\ (forall recs hr spo2,
         hd_error (stdout (shown_block (fold_left process_record recs initial_state) hr spo2))
         = Some (String.append "Time: "
                  (String.append (time_shown (N.of_nat (List.length recs)))
                     (String.append " s | BPM: "
                        (String.append (Printf.fmt_d hr)
                           (String.append " | SpO2: "
                              (String.append (Printf.fmt_d spo2) Printf.nl)))))))
  /\ map time_shown [0; 1; 2]%N = map exact_time [0; 1; 2]%N
  /\ map (fun block => hd_error block)
         [ stdout (shown_block initial_state 100 98);
           stdout (shown_block (fold_left process_record [(100, 98)] initial_state) 150 92);
           stdout (shown_block (fold_left process_record [(100, 98); (150, 92)] initial_state) 60 0) ]
     = [ Some (String.append "Time: 0.000 s | BPM: 100 | SpO2: 98" Printf.nl);
         Some (String.append "Time: 0.001 s | BPM: 150 | SpO2: 92" Printf.nl);
         Some (String.append "Time: 0.002 s | BPM: 60 | SpO2: 0" Printf.nl) ]
  /\ records_of three_samples = [(100, 98); (150, 92); (60, 0)]
  /\ printed_counters (records_of three_samples) initial_state = [1; 2; 3]
  /\ time_shown 191337246 = "191337.245"%string
  /\ exact_time 191337246 = "191337.246"%string.
Proof.
  assert (Hclock : forall recs,
             sys_time_sec (fold_left process_record recs initial_state)
             = clock_after (N.of_nat (List.length recs))).
  { intros recs. rewrite run_clock. reflexivity. }
  split; [reflexivity |].
  split; [exact tick_constant_is_nearest |].
  split; [exact loop_body_clock |].
  split; [exact Hclock |].
  split.
  { intros recs hr spo2. unfold shown_block, status_block, time_shown.
    rewrite Hclock. reflexivity. }
  split; [vm_compute; reflexivity |].
  split; [vm_compute; reflexivity |].
  split; [vm_compute; reflexivity |].
  split; [vm_compute; reflexivity |].
  split; [exact time_shown_191337246 |].
  vm_compute. reflexivity.
Qed.

(* ------------------------------------------------------------------ *)
(** ** The loop ends: a bound on the number of rounds *)

Section LoopBound.

Import Scanf.

Lemma fscanf_consumes (s : string) :
  ret (fscanf_d_comma_d s) = 2 ->
  (String.length (unread (fscanf_d_comma_d s)) + 3 <= String.length s)%nat.
Proof.
  unfold fscanf_d_comma_d.
  destruct (scan_d s) as [hr s1 | |] eqn:E1; simpl; try discriminate.
  apply scan_d_shorter in E1.
  destruct s1 as [| c s2]; simpl; [discriminate |].
  destruct (Ascii.eqb c ","); simpl; [| discriminate].
  destruct (scan_d s2) as [spo2 s3 | |] eqn:E2; simpl; try discriminate.
  apply scan_d_shorter in E2. simpl in E1. intros _. lia.
Qed.

Lemma records_of_bound (n : nat) :
  forall s,
    (String.length s <= n)%nat ->
    (3 * List.length (records_of s) <= String.length s)%nat.
Proof.
  induction n as [| n IH]; intros s Hn; rewrite records_of_step; cbv zeta;
    destruct (Z.eqb_spec (ret (fscanf_d_comma_d s)) 2) as [E | E];
    try (cbn [List.length]; lia);
    pose proof (fscanf_consumes s E) as Hc; [lia |].
  cbn [List.length].
  specialize (IH (unread (fscanf_d_comma_d s))). lia.
Qed.

End LoopBound.

(** X1: the [while] loop of [main] ends on every input: any fuel above the
    length of the stream gives the result of [main]'s loop, and since a
    converted pair takes at least three characters the loop body runs at most
    a third of the length of the file times. *)
Theorem read_loop_terminates :
  forall fuel s st,
    (String.length s < fuel)%nat ->
    read_loop fuel s st = read_loop (S (String.length s)) s st
    /\ (3 * List.length (records_of s) <= String.length s)%nat.
Proof.
  intros fuel s st Hfuel. split.
  - apply read_loop_fuel; lia.
  - apply (records_of_bound (String.length s)). lia.
Qed.

Lemma read_loop_terminates_witness :
  read_loop 40 "1,2-3,4" initial_state
  = read_loop (S (String.length "1,2-3,4")) "1,2-3,4" initial_state
  /\ (3 * List.length (records_of "1,2-3,4") <= String.length "1,2-3,4")%nat.
Proof.
  apply (read_loop_terminates 40 "1,2-3,4" initial_state). vm_compute. lia.
Defined.

(* ------------------------------------------------------------------ *)
(** ** Which inputs the loop accepts *)

Section InputFormat.

Import Printf Scanf.
Local Open Scope string_scope.
Local Open Scope Z_scope.

Lemma append_empty (s : string) : s ++ "" = s.
Proof. induction s as [| c s IH]; simpl; [| rewrite IH]; reflexivity. Qed.

Lemma scan_d_skip_spaces (ws s : string) :
  all_space ws = true -> scan_d (ws ++ s) = scan_d s.
Proof.
  induction ws as [| c ws IH]; intros H; [reflexivity |].
  cbn [all_space] in H. apply andb_prop in H. destruct H as [Hc Hws].
  rewrite <- (IH Hws). cbn [append]. unfold scan_d. cbn [skip_space].
  rewrite Hc. reflexivity.
Qed.

Lemma records_of_skip_spaces (ws s : string) :
  all_space ws = true -> records_of (ws ++ s) = records_of s.
Proof.
  induction ws as [| c ws IH]; intros H; [reflexivity |].
  cbn [all_space] in H. apply andb_prop in H. destruct H as [Hc Hws].
  cbn [append]. rewrite records_of_skip by exact Hc. apply IH, Hws.
Qed.

Lemma fscanf_written_pair (hr spo2 : Z) (ws1 ws2 rest : string) :
  CInt.in_range hr = true -> CInt.in_range spo2 = true ->
  all_space ws1 = true -> all_space ws2 = true ->
  no_leading_digit rest = true ->
  fscanf_d_comma_d (ws1 ++ fmt_d hr ++ String "," (ws2 ++ fmt_d spo2 ++ rest))
  = {| ret := 2; hr_reading := hr; spo2_reading := spo2; unread := rest |}.
Proof.
  intros Hhr Hspo2 H1 H2 Hrest. unfold fscanf_d_comma_d.
  rewrite scan_d_skip_spaces by exact H1.
  rewrite scan_d_fmt_d by (exact Hhr || reflexivity).
  replace (Ascii.eqb "," ",") with true by reflexivity.
  rewrite scan_d_skip_spaces by exact H2.
  rewrite scan_d_fmt_d by assumption.
  reflexivity.
Qed.

(** Exit status and output are a function of the pairs converted. *)
Lemma main_by_records (w w' : world) (content content' : string) :
  files w SOURCE_FILE = Some content ->
  files w' SOURCE_FILE = Some content' ->
  records_of content = records_of content' ->
  exit_code (main w) = exit_code (main w')
  /\ stdout (snd (main w)) = stdout (snd (main w')).
Proof.
  intros Hf Hf' Hrec.
  destruct (main_opened w content Hf) as (last & _ & E).
  destruct (main_opened w' content' Hf') as (last' & _ & E').
  rewrite E, E', Hrec. cbn [exit_code fst snd].
  rewrite !stdout_app. split; reflexivity.
Qed.

End InputFormat.

(** X2: two [int] values in the decimal notation of [%d], separated by a
    comma, white space allowed before each of them, and followed by anything
    that does not begin with a digit, are converted to exactly that pair, and
    the loop goes on with what follows; no line break is needed. *)
Theorem written_pair_is_read_back :
  forall hr spo2 ws1 ws2 rest,
    CInt.in_range hr = true -> CInt.in_range spo2 = true ->
    all_space ws1 = true -> all_space ws2 = true ->
    no_leading_digit rest = true ->
    records_of
      (String.append ws1
         (String.append (Printf.fmt_d hr)
            (String "," (String.append ws2 (String.append (Printf.fmt_d spo2) rest)))))
    = (hr, spo2) :: records_of rest.
Proof.
  intros hr spo2 ws1 ws2 rest Hhr Hspo2 H1 H2 Hrest.
  rewrite records_of_step, fscanf_written_pair by assumption.
  reflexivity.
Qed.

Lemma written_pair_is_read_back_witness :
  records_of
    (String.append " "
       (String.append (Printf.fmt_d (-40))
          (String "," (String.append "  "
             (String.append (Printf.fmt_d 2147483647) ";7,7")))))
  = (-40, 2147483647) :: records_of ";7,7".
Proof.
  apply written_pair_is_read_back; reflexivity.
Defined.

(** X3: white space at the head of the stream (blanks, tabs, line feeds,
    carriage returns, blank lines) changes neither the pairs processed nor
    exit status and output; a file of white space only is processed like an
    empty file. *)
Theorem leading_white_space_is_skipped :
  forall ws s w w',
    all_space ws = true ->
    files w SOURCE_FILE = Some (String.append ws s) ->
    files w' SOURCE_FILE = Some s ->
    records_of (String.append ws s) = records_of s
    /\ records_of ws = []
    /\ exit_code (main w) = exit_code (main w')
    /\ stdout (snd (main w)) = stdout (snd (main w')).
Proof.
  intros ws s w w' Hws Hf Hf'.
  assert (E : records_of (String.append ws s) = records_of s)
    by (apply records_of_skip_spaces, Hws).
  split; [exact E | split].
  - rewrite <- (append_empty ws), records_of_skip_spaces by exact Hws.
    reflexivity.
  - exact (main_by_records w w' _ _ Hf Hf' E).
Qed.

Lemma leading_white_space_is_skipped_witness :
  records_of (String.append (String.append Printf.nl (String "013" Printf.nl)) "60,91")
  = records_of "60,91"
  /\ records_of (String.append Printf.nl (String "013" Printf.nl)) = []
  /\ stdout (snd (main (world_with
        (String.append (String.append Printf.nl (String "013" Printf.nl)) "60,91"))))
     = stdout (snd (main (world_with "60,91"))).
Proof.
  destruct (leading_white_space_is_skipped
              (String.append Printf.nl (String "013" Printf.nl)) "60,91"
              (world_with (String.append (String.append Printf.nl (String "013" Printf.nl)) "60,91"))
              (world_with "60,91"))
    as (H1 & H2 & _ & H3); try reflexivity.
  split; [exact H1 | split; [exact H2 | exact H3]].
Defined.



(* ------------------------------------------------------------------ *)
(** ** Alarms are never filtered out *)

Section AlarmDisplay.

Lemma alarm_active_iff (s : Z) :
  fst (evaluate_alarm_condition s) <> STATUS_NORMAL <-> s < 95.
Proof.
  unfold evaluate_alarm_condition, STATUS_NORMAL, STATUS_FAILURE,
    STATUS_CRITICAL, STATUS_WARNING.
  destruct (Z.eqb_spec s 0) as [-> | Hz]; cbn [fst].
  - split; [lia | discriminate].
  - destruct (Z.ltb_spec s 90) as [H90 | H90]; cbn [fst];
      [split; [lia | discriminate] |].
    destruct (Z.ltb_spec s 95) as [H95 | H95]; cbn [fst];
      [split; [lia | discriminate] |].
    split; [intros Hne; exfalso; apply Hne; reflexivity | lia].
Qed.

End AlarmDisplay.

(** X5: the alarm is active exactly for SpO2 readings below 95 (negative
    ones included, which count as critical), and a sample with such a
    reading is written whatever the sample counter is; a sample with a
    reading of 95 or more is written only as the first sample or on a
    multiple of 1000. *)
Theorem alarm_samples_are_always_shown :
  (forall s, fst (evaluate_alarm_condition s) <> STATUS_NORMAL <-> s < 95)
  /\ (forall s, s < 0 -> evaluate_alarm_condition s
                         = (STATUS_CRITICAL, "CRITICAL: Odd Pins ON"%string))
  /\ (forall hr spo2 st,
         spo2 < 95 ->
         trace (loop_body hr spo2 st) = trace st ++ shown_block st hr spo2)
  /\ (forall hr spo2 st,
         95 <= spo2 ->
         packet_counter (loop_body hr spo2 st) <> 1 ->
         ~ (1000 | packet_counter (loop_body hr spo2 st)) ->
         trace (loop_body hr spo2 st) = trace st).
Proof.
  split; [exact alarm_active_iff | split; [| split]].
  - intros s Hs. unfold evaluate_alarm_condition.
    destruct (Z.eqb_spec s 0); [lia |].
    destruct (Z.ltb_spec s 90); [reflexivity | lia].
  - intros hr spo2 st Hs. rewrite loop_body_trace.
    replace (display_filter _ _) with true; [reflexivity |].
    symmetry. apply display_filter_iff. right. right.
    apply alarm_active_iff, Hs.
  - intros hr spo2 st Hs H1 H1000. rewrite loop_body_trace.
    destruct (display_filter _ _) eqn:E; [| apply app_nil_r].
    apply display_filter_iff in E. destruct E as [E | [E | E]].
    + contradiction.
    + contradiction.
    + apply alarm_active_iff in E. lia.
Qed.

Lemma alarm_samples_are_always_shown_witness :
  evaluate_alarm_condition (-7) = (STATUS_CRITICAL, "CRITICAL: Odd Pins ON"%string)
  /\ trace (loop_body 70 94 (loop_body 70 99 initial_state))
     = trace (loop_body 70 99 initial_state)
       ++ shown_block (loop_body 70 99 initial_state) 70 94
  /\ trace (loop_body 70 95 (loop_body 70 99 initial_state))
     = trace (loop_body 70 99 initial_state).
Proof.
  destruct alarm_samples_are_always_shown as (_ & Neg & Shown & Hidden).
  split; [apply Neg; lia | split].
  - apply Shown. lia.
  - apply Hidden; [lia | |];
      replace (packet_counter (loop_body 70 95 (loop_body 70 99 initial_state)))
        with 2 by (vm_compute; reflexivity).
    + discriminate.
    + intros [k Hk]. lia.
Defined.

(* ------------------------------------------------------------------ *)
(** ** The second and third lines of a status block *)

Section BlockLines.

Lemma duty_table : forallb duty_line_ok (seq 0 201) = true.
Proof. vm_compute. reflexivity. Qed.

Lemma pwm_line_exact (c : Z) :
  0 <= c <= 200 -> pwm_line (5 * c) = Some (exact_duty_line (5 * c)).
Proof.
  intros Hc. pose proof duty_table as T.
  rewrite forallb_forall in T. specialize (T (Z.to_nat c)).
  assert (Hin : In (Z.to_nat c) (seq 0 201)) by (apply in_seq; lia).
  apply T in Hin. unfold duty_line_ok in Hin.
  rewrite Z2Nat.id in Hin by lia.
  destruct (pwm_line (5 * c)) as [line |]; [| discriminate].
  apply String.eqb_eq in Hin. rewrite Hin. reflexivity.
Qed.

Lemma shown_block_pwm_line (st : loop_state) (hr spo2 : Z) :
  nth_error (stdout (shown_block st hr spo2)) 1
  = pwm_line (compute_pwm_register hr).
Proof. reflexivity. Qed.

Lemma shown_block_gpio_line (st : loop_state) (hr spo2 : Z) :
  nth_error (stdout (shown_block st hr spo2)) 2
  = gpio_line (fst (evaluate_alarm_condition spo2))
              (snd (evaluate_alarm_condition spo2)).
Proof. reflexivity. Qed.

End BlockLines.

(** X6: in every status block the duty shown is the exact quotient of the
    register value by ten, with one decimal that is 0 or 5 (the [float]
    division and the [%.1f] rounding lose nothing), between 0.0 and 100.0. *)
Theorem duty_is_shown_exactly :
  forall st hr spo2,
    nth_error (stdout (shown_block st hr spo2)) 1
    = Some (exact_duty_line (compute_pwm_register hr))
    /\ 0 <= compute_pwm_register hr / 10 <= 100
    /\ (compute_pwm_register hr mod 10 = 0 \/ compute_pwm_register hr mod 10 = 5).
Proof.
  intros st hr spo2.
  rewrite shown_block_pwm_line, compute_pwm_register_linear.
  pose proof (clamp_hr_range hr) as R.
  split; [apply pwm_line_exact, R | split].
  - split; [apply Z.div_pos; lia | apply Z.div_le_upper_bound; lia].
  - pose proof (Z.mod_pos_bound (clamp_hr hr) 2 ltac:(lia)) as Hm.
    pose proof (Z.div_mod (clamp_hr hr) 2 ltac:(lia)) as Hd.
    assert (Hcase : clamp_hr hr mod 2 = 0 \/ clamp_hr hr mod 2 = 1) by lia.
    destruct Hcase as [E | E]; [left | right];
      symmetry; apply (Z.mod_unique_pos _ _ (clamp_hr hr / 2)); lia.
Qed.

(** X7: the GPIO line of a status block is one of four fixed texts: the mask
    in four upper-case hexadecimal digits with its label. *)
Theorem gpio_line_is_one_of_four :
  forall st hr spo2,
    In (nth_error (stdout (shown_block st hr spo2)) 2) gpio_lines.
Proof.
  intros st hr spo2. rewrite shown_block_gpio_line.
  pose proof (evaluate_alarm_condition_cases spo2) as H.
  unfold alarm_pairs in H. cbn [In] in H.
  destruct H as [H | [H | [H | [H | []]]]]; rewrite <- H;
    vm_compute; tauto.
Qed.

(* ------------------------------------------------------------------ *)
(** ** The shape of a whole run *)

Section RunShape.

Lemma process_record_stdout (st : loop_state) (r : Z * Z) :
  stdout (trace (process_record st r))
  = stdout (trace st)
    ++ (if display_filter (packet_counter (process_record st r))
                          (fst (evaluate_alarm_condition (snd r)))
        then stdout (shown_block st (fst r) (snd r)) else []).
Proof.
  rewrite process_record_trace, stdout_app. cbn [stdout].
  destruct (display_filter _ _); reflexivity.
Qed.

Lemma printed_counters_cons (r : Z * Z) (recs : list (Z * Z)) (st : loop_state) :
  printed_counters (r :: recs) st
  = (if display_filter (packet_counter (process_record st r))
                       (fst (evaluate_alarm_condition (snd r)))
     then [packet_counter (process_record st r)] else [])
    ++ printed_counters recs (process_record st r).
Proof.
  cbn [printed_counters]. rewrite process_record_stdout.
  destruct (display_filter _ _).
  - rewrite length_app, shown_block_lines.
    replace (Nat.eqb _ _) with false; [reflexivity |].
    symmetry. apply Nat.eqb_neq. lia.
  - rewrite app_nil_r, Nat.eqb_refl. reflexivity.
Qed.

Lemma run_stdout_length (recs : list (Z * Z)) :
  forall st,
    List.length (stdout (trace (fold_left process_record recs st)))
    = (List.length (stdout (trace st))
       + 4 * List.length (printed_counters recs st))%nat.
Proof.
  induction recs as [| r recs IH]; intros st.
  - cbn [fold_left printed_counters List.length]. lia.
  - cbn [fold_left]. rewrite IH, printed_counters_cons, process_record_stdout.
    destruct (display_filter _ _).
    + rewrite !length_app, shown_block_lines. cbn [List.length]. lia.
    + rewrite app_nil_r. cbn [List.app]. lia.
Qed.

Lemma printed_counters_length (recs : list (Z * Z)) :
  forall st,
    (List.length (printed_counters recs st) <= List.length recs)%nat.
Proof.
  induction recs as [| r recs IH]; intros st; [cbn; lia |].
  rewrite printed_counters_cons, length_app. specialize (IH (process_record st r)).
  destruct (display_filter _ _); cbn [List.length]; lia.
Qed.

(** What the loop appends to the trace: calls of [fscanf] and [printf]
    only, one successful [fscanf] per pair. *)
Lemma run_trace_calls (recs : list (Z * Z)) :
  forall st, exists ext,
    trace (fold_left process_record recs st) = trace st ++ ext
    /\ forallb loop_call ext = true
    /\ List.length (filter is_fscanf ext) = List.length recs.
Proof.
  induction recs as [| r recs IH]; intros st.
  - exists []. rewrite app_nil_r. repeat split.
  - cbn [fold_left]. destruct (IH (process_record st r)) as (ext & E & Hall & Hcount).
    rewrite E, process_record_trace.
    destruct (display_filter _ _).
    + exists (Fscanf 2 :: shown_block st (fst r) (snd r) ++ ext).
      split; [rewrite <- !app_assoc; reflexivity | split].
      * cbn [forallb loop_call andb]. rewrite forallb_app, Hall. reflexivity.
      * cbn [filter is_fscanf List.length]. rewrite filter_app, length_app, Hcount.
        reflexivity.
    + exists (Fscanf 2 :: ext).
      split; [rewrite <- !app_assoc; reflexivity | split].
      * cbn [forallb loop_call andb]. exact Hall.
      * cbn [filter is_fscanf List.length]. rewrite Hcount. reflexivity.
Qed.

End RunShape.

(** X8: when the file opens, standard output is the two banner lines, four
    lines for each sample written, then the notice and the prompt: the
    number of texts written is 4 plus 4 times the number of samples written,
    which is at most the number of pairs read, and the first pair read is
    always written. *)
Theorem output_is_banner_blocks_notice :
  forall w content,
    files w SOURCE_FILE = Some content ->
    List.length (stdout (snd (main w)))
    = (4 + 4 * List.length (printed_counters (records_of content) initial_state))%nat
    /\ (List.length (printed_counters (records_of content) initial_state)
        <= List.length (records_of content))%nat
    /\ (records_of content <> [] ->
        hd_error (printed_counters (records_of content) initial_state) = Some 1).
Proof.
  intros w content Hf.
  destruct (main_opened w content Hf) as (last & _ & E).
  rewrite E. cbn [snd]. rewrite stdout_app, length_app, run_stdout_length.
  split; [cbn; lia | split].
  - apply printed_counters_length.
  - destruct (records_of content) as [| r recs]; [intros H; contradiction H; reflexivity |].
    intros _. rewrite printed_counters_cons.
    replace (packet_counter (process_record initial_state r)) with 1
      by (rewrite process_record_counter; reflexivity).
    replace (display_filter 1 _) with true; [reflexivity |].
    symmetry. apply display_filter_iff. left. reflexivity.
Qed.

Lemma output_is_banner_blocks_notice_witness :
  List.length (stdout (snd (main (world_with three_samples)))) = 16%nat
  /\ hd_error (printed_counters (records_of three_samples) initial_state) = Some 1.
Proof.
  destruct (output_is_banner_blocks_notice (world_with three_samples) three_samples)
    as (H1 & _ & H2); [reflexivity |].
  split.
  - rewrite H1. vm_compute. reflexivity.
  - apply H2. vm_compute. discriminate.
Defined.

(** X9: the file is opened once and, when that succeeds, closed once, after
    the last [fscanf] and before the completion notice; between the two the
    program calls only [fscanf] and [printf], [fscanf] succeeding once per
    pair and failing once at the end; [getchar] is the last call.  When the
    file does not open there is no [fscanf], [fclose] or [getchar]. *)
Theorem file_is_opened_and_closed_once :
  forall w,
    match files w SOURCE_FILE with
    | None =>
        exists texts,
          snd (main w) = Fopen SOURCE_FILE false :: map Printf texts
    | Some content =>
        exists body last,
          snd (main w)
          = Fopen SOURCE_FILE true :: body
            ++ [ Fscanf last; Fclose; Printf completion_notice;
                 Printf exit_prompt; Getchar (getchar (stdin w)) ]
          /\ last <> 2
          /\ forallb loop_call body = true
          /\ List.length (filter is_fscanf body) = List.length (records_of content)
    end.
Proof.
  intros w. destruct (files w SOURCE_FILE) as [content |] eqn:Hf.
  - destruct (main_opened w content Hf) as (last & Hlast & E).
    destruct (run_trace_calls (records_of content) initial_state)
      as (ext & Eext & Hall & Hcount).
    exists (map Printf start_banner ++ ext), last.
    rewrite E, Eext. cbn [snd].
    split; [unfold initial_state; cbn [trace]; rewrite <- !app_assoc; reflexivity |].
    split; [exact Hlast | split].
    + rewrite forallb_app, Hall. reflexivity.
    + rewrite filter_app, length_app, Hcount. reflexivity.
  - rewrite (main_missing w Hf). exists missing_file_diagnostic. reflexivity.
Qed.

(* ------------------------------------------------------------------ *)
(** ** A stream without alarms *)

Section HealthyStream.

Lemma div_1000_step (x : Z) :
  0 <= x ->
  (x + 1) / 1000 = x / 1000 + (if Z.rem (x + 1) 1000 =? 0 then 1 else 0).
Proof.
  intros Hx. rewrite Z.rem_mod_nonneg by lia.
  pose proof (Z.div_mod x 1000 ltac:(lia)) as Hd.
  pose proof (Z.mod_pos_bound x 1000 ltac:(lia)) as Hm.
  destruct (Z.eq_dec (x mod 1000) 999) as [E | E].
  - assert (Hr : (x + 1) mod 1000 = 0)
      by (symmetry; apply (Z.mod_unique_pos _ _ (x / 1000 + 1)); lia).
    rewrite Hr. cbn [Z.eqb].
    symmetry. apply (Z.div_unique_pos _ _ _ 0); lia.
  - assert (Hr : (x + 1) mod 1000 = x mod 1000 + 1)
      by (symmetry; apply (Z.mod_unique_pos _ _ (x / 1000)); lia).
    rewrite Hr.
    destruct (Z.eqb_spec (x mod 1000 + 1) 0); [lia |].
    rewrite Z.add_0_r.
    symmetry. apply (Z.div_unique_pos _ _ _ (x mod 1000 + 1)); lia.
Qed.

Lemma healthy_filter (c spo2 : Z) :
  95 <= spo2 -> 2 <= c ->
  display_filter c (fst (evaluate_alarm_condition spo2))
  = (Z.rem c 1000 =? 0).
Proof.
  intros Hs Hc.
  assert (E : fst (evaluate_alarm_condition spo2) = STATUS_NORMAL).
  { destruct (Z.eq_dec (fst (evaluate_alarm_condition spo2)) STATUS_NORMAL) as [E | E];
      [exact E | apply alarm_active_iff in E; lia]. }
  rewrite E. unfold display_filter, CInt.c_rem.
  destruct (Z.eqb_spec c 1); [lia |].
  rewrite Z.eqb_refl. cbn [negb orb]. apply orb_false_r.
Qed.

Lemma healthy_run_count (recs : list (Z * Z)) :
  forall st,
    Forall healthy recs ->
    1 <= packet_counter st ->
    packet_counter st + Z.of_nat (List.length recs) <= CInt.INT_MAX ->
    Z.of_nat (List.length (printed_counters recs st))
    = (packet_counter st + Z.of_nat (List.length recs)) / 1000
      - packet_counter st / 1000.
Proof.
  induction recs as [| r recs IH]; intros st Hall H1 Hmax.
  - cbn [printed_counters List.length]. rewrite Z.add_0_r. lia.
  - inversion Hall as [| r' recs' Hr Hrecs]; subst.
    cbn [List.length] in Hmax |- *. rewrite Nat2Z.inj_succ in Hmax |- *.
    assert (Ec : packet_counter (process_record st r) = packet_counter st + 1).
    { rewrite process_record_counter. unfold CInt.wrap, CInt.INT_MAX in *.
      rewrite Z.mod_small by lia. lia. }
    rewrite printed_counters_cons, length_app, Nat2Z.inj_add.
    rewrite (IH (process_record st r)) by (try exact Hrecs; rewrite Ec; lia).
    rewrite Ec, healthy_filter by (exact Hr || lia).
    rewrite (div_1000_step (packet_counter st)) by lia.
    replace (packet_counter st + 1 + Z.of_nat (List.length recs))
      with (packet_counter st + Z.succ (Z.of_nat (List.length recs))) by lia.
    destruct (Z.rem (packet_counter st + 1) 1000 =? 0); cbn [List.length]; lia.
Qed.

End HealthyStream.

(** X10: for a file whose pairs all have SpO2 of 95 or more the program
    writes the first sample and then one sample in every thousand: with [n]
    pairs ([1 <= n <= INT_MAX]) it writes [1 + n / 1000] status blocks, that
    is [8 + 4 * (n / 1000)] texts in all. *)
Theorem healthy_stream_block_count :
  forall w content,
    files w SOURCE_FILE = Some content ->
    Forall healthy (records_of content) ->
    records_of content <> [] ->
    Z.of_nat (List.length (records_of content)) <= CInt.INT_MAX ->
    Z.of_nat (List.length (printed_counters (records_of content) initial_state))
    = 1 + Z.of_nat (List.length (records_of content)) / 1000
    /\ Z.of_nat (List.length (stdout (snd (main w))))
       = 8 + 4 * (Z.of_nat (List.length (records_of content)) / 1000).
Proof.
  intros w content Hf Hall Hne Hmax.
  assert (Hcount :
    Z.of_nat (List.length (printed_counters (records_of content) initial_state))
    = 1 + Z.of_nat (List.length (records_of content)) / 1000).
  { destruct (records_of content) as [| r recs]; [contradiction Hne; reflexivity |].
    inversion Hall as [| r' recs' Hr Hrecs]; subst.
    cbn [List.length] in Hmax |- *. rewrite Nat2Z.inj_succ in Hmax |- *.
    assert (Ec : packet_counter (process_record initial_state r) = 1)
      by (rewrite process_record_counter; reflexivity).
    rewrite printed_counters_cons, Ec.
    replace (display_filter 1 _) with true
      by (symmetry; apply display_filter_iff; left; reflexivity).
    cbn [List.app List.length]. rewrite Nat2Z.inj_succ.
    rewrite (healthy_run_count recs (process_record initial_state r))
      by (try exact Hrecs; rewrite Ec; lia).
    rewrite Ec. change (1 / 1000) with 0.
    replace (1 + Z.of_nat (List.length recs)) with (Z.succ (Z.of_nat (List.length recs)))
      by lia.
    lia. }
  split; [exact Hcount |].
  destruct (main_opened w content Hf) as (last & _ & E).
  rewrite E. cbn [snd]. rewrite stdout_app, length_app, run_stdout_length.
  cbn [List.length initial_state trace stdout map start_banner].
  lia.
Qed.

Lemma healthy_stream_block_count_witness :
  Z.of_nat (List.length (stdout (snd (main (world_with (csv [(80, 97); (64, 95)]))))))
  = 8 + 4 * (Z.of_nat (List.length (records_of (csv [(80, 97); (64, 95)]))) / 1000).
Proof.
  assert (E : records_of (csv [(80, 97); (64, 95)]) = [(80, 97); (64, 95)])
    by (vm_compute; reflexivity).
  apply (healthy_stream_block_count (world_with (csv [(80, 97); (64, 95)]))
           (csv [(80, 97); (64, 95)])).
  - reflexivity.
  - rewrite E. repeat constructor; unfold healthy; cbn [snd]; lia.
  - rewrite E. discriminate.
  - rewrite E. vm_compute. discriminate.
Defined.

(* ------------------------------------------------------------------ *)
(** ** Saturation of the PWM mapper *)

(** X11: the register value is 0 only for heart rates of 0 or less and 1000
    only from 200 upwards; between 0 and 200 the mapper is strictly
    increasing, and dividing the register value by 5 gives back the clamped
    heart rate; two inputs that differ by [d] give values at most [5 * d]
    apart. *)
Theorem pwm_saturates_only_at_the_ends :
  forall h,
    (compute_pwm_register h = 0 <-> h <= 0)
    /\ (compute_pwm_register h = 1000 <-> 200 <= h)
    /\ compute_pwm_register h / 5 = clamp_hr h
    /\ (forall h', 0 <= h -> h < h' -> h' <= 200 ->
                   compute_pwm_register h < compute_pwm_register h')
    /\ (forall h', Z.abs (compute_pwm_register h - compute_pwm_register h')
                   <= 5 * Z.abs (h - h')).
Proof.
  intros h. rewrite !compute_pwm_register_linear.
  split; [unfold clamp_hr; lia | split; [unfold clamp_hr; lia | split; [| split]]].
  - rewrite Z.mul_comm. apply Z.div_mul. lia.
  - intros h' H0 Hlt H200. rewrite compute_pwm_register_linear.
    unfold clamp_hr. lia.
  - intros h'. rewrite compute_pwm_register_linear. unfold clamp_hr. lia.
Qed.

Lemma pwm_saturates_only_at_the_ends_witness :
  compute_pwm_register 61 < compute_pwm_register 62.
Proof.
  destruct (pwm_saturates_only_at_the_ends 61) as (_ & _ & _ & H & _).
  apply H; lia.
Defined.

(* ------------------------------------------------------------------ *)
(** ** The clock over the first ten seconds *)

Section ClockStart.

Lemma shows_thousandths_text (t : CDouble.double) (n : N) :
  shows_thousandths t n = true -> Printf.fmt_f 3 t = exact_time n.
Proof.
  unfold shows_thousandths, Printf.fmt_f.
  destruct (Prim2SF t) as [[] | [] | | [] m e]; try discriminate; intros H.
  - apply N.eqb_eq in H. subst n. reflexivity.
  - apply Z.eqb_eq in H. rewrite H. reflexivity.
Qed.

Lemma times_exact_spec (k : nat) :
  forall t n,
    times_exact k t n = true ->
    forall i, (i < k)%nat ->
      Printf.fmt_f 3 (N.iter (N.of_nat i) tick t) = exact_time (n + N.of_nat i).
Proof.
  induction k as [| k IH]; intros t n H i Hi; [lia |].
  cbn [times_exact] in H. apply andb_prop in H. destruct H as [Hnow Hnext].
  destruct i as [| i].
  - cbn [N.of_nat N.iter]. rewrite N.add_0_r. apply shows_thousandths_text, Hnow.
  - rewrite Nat2N.inj_succ, N.iter_succ_r.
    replace (n + N.succ (N.of_nat i))%N with (N.succ n + N.of_nat i)%N by lia.
    apply IH; [exact Hnext | lia].
Qed.

Lemma times_exact_10000 : times_exact (N.to_nat 10000) 0%float 0 = true.
Proof. vm_compute. reflexivity. Qed.

End ClockStart.

(** X12: during the first ten seconds the clock shows no rounding: the
    status block of each of the first 10000 samples, when it is written,
    begins with the elapsed time [(n - 1) * 0.001] to three decimals and the
    two readings. *)
Theorem first_ten_seconds_are_exact :
  forall recs hr spo2,
    Z.of_nat (List.length recs) < 10000 ->
    time_shown (N.of_nat (List.length recs)) = exact_time (N.of_nat (List.length recs))
    /\ hd_error (stdout (shown_block (fold_left process_record recs initial_state) hr spo2))
       = Some (String.append "Time: "
                (String.append (exact_time (N.of_nat (List.length recs)))
                   (String.append " s | BPM: "
                      (String.append (Printf.fmt_d hr)
                         (String.append " | SpO2: "
                            (String.append (Printf.fmt_d spo2) Printf.nl)))))).
Proof.
  intros recs hr spo2 Hlen.
  assert (E : Printf.fmt_f 3 (N.iter (N.of_nat (List.length recs)) tick 0%float)
              = exact_time (N.of_nat (List.length recs))).
  { apply (times_exact_spec (N.to_nat 10000) 0%float 0%N times_exact_10000).
    lia. }
  split.
  - unfold time_shown. rewrite clock_after_eq. exact E.
  - unfold shown_block, status_block. cbn [stdout hd_error].
    rewrite run_clock. cbn [sys_time_sec initial_state]. rewrite E. reflexivity.
Qed.

Lemma first_ten_seconds_are_exact_witness :
  time_shown (N.of_nat (List.length [(70, 98); (71, 98)]))
  = exact_time (N.of_nat (List.length [(70, 98); (71, 98)])).
Proof.
  destruct (first_ten_seconds_are_exact [(70, 98); (71, 98)] 72 98) as [H _].
  - cbn [List.length]. lia.
  - exact H.
Defined.

(* ------------------------------------------------------------------ *)
(** ** A file of alarms *)

Section AllAlarms.

Lemma alarm_run_count (recs : list (Z * Z)) :
  forall st,
    Forall alarming recs ->
    List.length (printed_counters recs st) = List.length recs.
Proof.
  induction recs as [| r recs IH]; intros st Hall; [reflexivity |].
  inversion Hall as [| r' recs' Hr Hrecs]; subst.
  rewrite printed_counters_cons.
  replace (display_filter _ _) with true.
  - cbn [List.app List.length]. rewrite IH by exact Hrecs. reflexivity.
  - symmetry. apply display_filter_iff. right. right.
    apply alarm_active_iff, Hr.
Qed.

End AllAlarms.

(** X13: a file of well-formed lines whose SpO2 readings are all below 95 is
    written in full: every line is converted, every sample gets its status
    block, and the output has 4 texts per line besides the banner, the
    notice and the prompt. *)
Theorem all_alarm_file_is_written_in_full :
  forall w recs,
    Forall int_pair recs ->
    Forall alarming recs ->
    files w SOURCE_FILE = Some (csv recs) ->
    records_of (csv recs) = recs
    /\ List.length (printed_counters recs initial_state) = List.length recs
    /\ List.length (stdout (snd (main w))) = (4 + 4 * List.length recs)%nat
    /\ exit_code (main w) = 0.
Proof.
  intros w recs Hint Halarm Hf.
  assert (E : records_of (csv recs) = recs).
  { rewrite <- (append_empty (csv recs)), records_of_csv by exact Hint.
    apply app_nil_r. }
  destruct (main_opened w _ Hf) as (last & _ & Em).
  rewrite Em, E. cbn [snd exit_code fst].
  rewrite stdout_app, length_app, run_stdout_length, alarm_run_count by exact Halarm.
  repeat split. cbn. lia.
Qed.

Lemma all_alarm_file_is_written_in_full_witness :
  List.length (stdout (snd (main (world_with (csv [(120, 0); (55, 89); (-3, 94)])))))
  = (4 + 4 * List.length [(120, 0); (55, 89); (-3, 94)]%Z)%nat.
Proof.
  apply (all_alarm_file_is_written_in_full
           (world_with (csv [(120, 0); (55, 89); (-3, 94)]))
           [(120, 0); (55, 89); (-3, 94)]).
  - repeat constructor.
  - repeat constructor; unfold alarming; cbn [snd]; lia.
  - reflexivity.
Defined.
